(** * Velux Club extraction and SQL Server catalog checks

    A shallow embedding of [viadot/sources/velux_club.py] and
    [viadot/sources/sql_server.py].

    Python strings are Rocq [string]s (characters with code points below
    256); a Python call either returns a value or raises, which is the
    [outcome] type below.  The HTTP server, pandas and the database are
    parameters: each of their calls may give a result or raise. *)

From Stdlib Require Import String Ascii List ZArith Bool Lia.
Import ListNotations.
Local Open Scope string_scope.

(** ** Python values and exceptions *)

(** The exceptions the modelled code can end with.  The first three are
    the module's own classes and carry their message.  [ValueError] is
    what [datetime.strptime] raises; [KeyError], [IndexError],
    [TypeError] and [AttributeError] come from subscripting and
    attribute access on a parsed payload.  [LibraryError] stands for
    whatever a collaborator (the HTTP transport, the JSON decoder, the
    database driver) raises.  pandas raises the built-in classes as
    themselves, see [raise_pandas]. *)
Inductive exn : Type :=
| Source_NOK (message : string)
| Dates_NOK (message : string)
| Historical_Too_Old (message : string)
| ValueError
| KeyError (key : string)
| IndexError
| TypeError
| AttributeError
| LibraryError (description : string).

Inductive outcome (A : Type) : Type :=
| Return (a : A)
| Raise (e : exn).
Arguments Return {A} a.
Arguments Raise {A} e.

Definition obind {A B : Type} (o : outcome A) (k : A -> outcome B) : outcome B :=
  match o with
  | Return a => k a
  | Raise e => Raise e
  end.

(** What a pandas call can raise: one of the built-in classes, or a class
    of its own, kept as a description. *)
Inductive pandas_exn : Type :=
| PValueError
| PKeyError (key : string)
| PIndexError
| PTypeError
| PAttributeError
| POther (description : string).

Definition raise_pandas (e : pandas_exn) : exn :=
  match e with
  | PValueError => ValueError
  | PKeyError key => KeyError key
  | PIndexError => IndexError
  | PTypeError => TypeError
  | PAttributeError => AttributeError
  | POther description => LibraryError description
  end.

(** The exceptions [get_response] can end with once its argument checks
    have passed. *)
Definition fetch_exn (e : exn) : Prop :=
  match e with
  | ValueError | KeyError _ | TypeError | IndexError | AttributeError
  | LibraryError _ => True
  | _ => False
  end.

(** [x in l] for a Python list of strings. *)
Definition py_in (x : string) (l : list string) : bool :=
  existsb (String.eqb x) l.

(** [needle in hay] for two Python strings: [needle] occurs in [hay] as a
    contiguous run of characters (the empty string always does). *)
Fixpoint str_contains (hay needle : string) : bool :=
  prefix needle hay ||
  match hay with
  | EmptyString => false
  | String _ hay' => str_contains hay' needle
  end.

(** ** Parsed JSON payloads

    What [response.json()] gives: [None], [bool], [int], [float], [str],
    [list] or [dict].  A dict keeps its entries in order; lookup takes the
    first entry with the key.  A float is never inspected by the code and
    is carried as mantissa and exponent. *)
#[local] Set Warnings "-register-all".
Inductive json : Type :=
| JNull
| JBool (b : bool)
| JInt (n : Z)
| JFloat (mantissa exponent : Z)
| JStr (s : string)
| JList (items : list json)
| JDict (entries : list (string * json)).

Fixpoint dict_get (entries : list (string * json)) (key : string) : option json :=
  match entries with
  | [] => None
  | (k, v) :: rest => if k =? key then Some v else dict_get rest key
  end.

(** [v[key]] with a string key. *)
Definition getitem (v : json) (key : string) : outcome json :=
  match v with
  | JDict entries =>
      match dict_get entries key with
      | Some x => Return x
      | None => Raise (KeyError key)
      end
  | _ => Raise TypeError
  end.

(** [items[0]] on a list. *)
Definition getitem0 (items : list json) : outcome json :=
  match items with
  | [] => Raise IndexError
  | x :: _ => Return x
  end.

(** [list(v.keys())]: only a dict has [keys]. *)
Definition keys (v : json) : outcome (list string) :=
  match v with
  | JDict entries => Return (map fst entries)
  | _ => Raise AttributeError
  end.

(** [v != None]. *)
Definition is_not_None (v : json) : bool :=
  match v with
  | JNull => false
  | _ => true
  end.

(** ** pandas

    The code only builds frames; it never looks inside one.  A frame is
    therefore the record of the pandas calls that made it:
    [pd.DataFrame(data)], [df.T] and [pd.concat((a, b), axis=0)].
    Whether pandas carries a call out or raises is not decided here: it
    is the parameter [pandas] of the code below. *)
Inductive DataFrame : Type :=
| pd_DataFrame (data : json)
| df_T (df : DataFrame)
| pd_concat (a b : DataFrame).

(** ** datetime

    [datetime.strptime(s, "%Y-%m-%d")] and the subtraction of two of its
    results.  Hour, minute and second of such a value are zero, so a value
    is its calendar date and [(a - b).days] is the difference of the
    proleptic Gregorian ordinals. *)
Record datetime : Type := mk_datetime { year : Z; month : Z; day : Z }.

Definition is_leap (y : Z) : bool :=
  (y mod 4 =? 0)%Z && (negb (y mod 100 =? 0)%Z || (y mod 400 =? 0)%Z).

Definition DAYS_IN_MONTH : list Z :=
  [0; 31; 28; 31; 30; 31; 30; 31; 31; 30; 31; 30; 31]%Z.

Definition DAYS_BEFORE_MONTH : list Z :=
  [0; 0; 31; 59; 90; 120; 151; 181; 212; 243; 273; 304; 334]%Z.

Definition days_in_month (y m : Z) : Z :=
  if (m =? 2)%Z && is_leap y then 29%Z
  else nth (Z.to_nat m) DAYS_IN_MONTH 0%Z.

Definition days_before_year (y : Z) : Z :=
  let y := (y - 1)%Z in
  (y * 365 + y / 4 - y / 100 + y / 400)%Z.

Definition days_before_month (y m : Z) : Z :=
  (nth (Z.to_nat m) DAYS_BEFORE_MONTH 0 +
   (if (2 <? m)%Z && is_leap y then 1 else 0))%Z.

Definition toordinal (d : datetime) : Z :=
  (days_before_year (year d) + days_before_month (year d) (month d) + day d)%Z.

(** [(a - b).days] *)
Definition delta_days (a b : datetime) : Z := (toordinal a - toordinal b)%Z.

(** What [datetime(year, month, day)] accepts. *)
Definition valid_date (y m d : Z) : bool :=
  (1 <=? y)%Z && (y <=? 9999)%Z && (1 <=? m)%Z && (m <=? 12)%Z &&
  (1 <=? d)%Z && (d <=? days_in_month y m)%Z.

Definition valid (a : datetime) : Prop :=
  valid_date (year a) (month a) (day a) = true.

(** Calendar order: [a] is strictly earlier than [b]. *)
Definition date_lt (a b : datetime) : Prop :=
  (year a < year b \/
   (year a = year b /\
    (month a < month b \/ (month a = month b /\ day a < day b))))%Z.

Definition leap_day (y : Z) : Z := if is_leap y then 1%Z else 0%Z.

(** The regular expression [strptime] compiles "%Y-%m-%d" to,
    [(?P<Y>\d\d\d\d)-(?P<m>1[0-2]|0[1-9]|[1-9])-(?P<d>3[0-1]|[1-2]\d|0[1-9]|[1-9]| [1-9])],
    matched at the start of the string.  Each piece lists its matches in
    the order a backtracking matcher tries them, as pairs of the number
    read and the rest of the string. *)
Definition char_in (lo hi : ascii) (c : ascii) : bool :=
  (nat_of_ascii lo <=? nat_of_ascii c)%nat && (nat_of_ascii c <=? nat_of_ascii hi)%nat.

Definition is_digit : ascii -> bool := char_in "0" "9".

Definition digit (c : ascii) : Z := (Z.of_nat (nat_of_ascii c) - 48)%Z.

Definition two (p1 p2 : ascii -> bool) (s : string) : list (Z * string) :=
  match s with
  | String a (String b rest) =>
      if p1 a && p2 b then [((10 * digit a + digit b)%Z, rest)] else []
  | _ => []
  end.

Definition one (p : ascii -> bool) (s : string) : list (Z * string) :=
  match s with
  | String a rest => if p a then [(digit a, rest)] else []
  | _ => []
  end.

Definition lit (ch : ascii) (s : string) : list string :=
  match s with
  | String a rest => if Ascii.eqb a ch then [rest] else []
  | _ => []
  end.

Definition re_Y (s : string) : list (Z * string) :=
  match s with
  | String a (String b (String c (String d rest))) =>
      if is_digit a && is_digit b && is_digit c && is_digit d
      then [((1000 * digit a + 100 * digit b + 10 * digit c + digit d)%Z, rest)]
      else []
  | _ => []
  end.

Definition re_m (s : string) : list (Z * string) :=
  two (char_in "1" "1") (char_in "0" "2") s
  ++ two (char_in "0" "0") (char_in "1" "9") s
  ++ one (char_in "1" "9") s.

Definition re_d (s : string) : list (Z * string) :=
  two (char_in "3" "3") (char_in "0" "1") s
  ++ two (char_in "1" "2") is_digit s
  ++ two (char_in "0" "0") (char_in "1" "9") s
  ++ one (char_in "1" "9") s
  ++ flat_map (one (char_in "1" "9")) (lit " " s).

Definition re_Ymd (s : string) : list (Z * Z * Z * string) :=
  flat_map (fun '(y, s1) =>
  flat_map (fun s2 =>
  flat_map (fun '(m, s3) =>
  flat_map (fun s4 =>
  map (fun '(d, s5) => (y, m, d, s5)) (re_d s4))
    (lit "-" s3)) (re_m s2)) (lit "-" s1)) (re_Y s).

(** [datetime.strptime(s, "%Y-%m-%d")]: the first match of the pattern;
    text left over after it, or a year, month and day that are not a date,
    is a [ValueError] like a failed match. *)
Definition strptime (s : string) : outcome datetime :=
  match re_Ymd s with
  | [] => Raise ValueError
  | (y, m, d, rest) :: _ =>
      if negb (rest =? "") then Raise ValueError
      else if valid_date y m d then Return (mk_datetime y m d)
      else Raise ValueError
  end.

(** ** HTTP

    A request is logged with its method, URL and headers.  [io A] is a
    computation that may issue requests: it takes the log of the requests
    issued so far and gives the outcome with the extended log, or [None]
    when the allotted number of loop iterations ran out before it ended. *)
Record request : Type :=
  mk_request { method : string; url : string; req_headers : list (string * string) }.

Definition io (A : Type) : Type :=
  list request -> option (outcome A * list request).

Definition ret {A : Type} (a : A) : io A := fun log => Some (Return a, log).

Definition throw {A : Type} (e : exn) : io A := fun log => Some (Raise e, log).

Definition lift {A : Type} (o : outcome A) : io A := fun log => Some (o, log).

Definition bind {A B : Type} (m : io A) (k : A -> io B) : io B :=
  fun log =>
    match m log with
    | None => None
    | Some (Return a, log') => k a log'
    | Some (Raise e, log') => Some (Raise e, log')
    end.

Declare Scope io_scope.
Delimit Scope io_scope with io.
Notation "x <- m ;; k" := (bind m (fun x => k))
  (at level 61, m at next level, right associativity) : io_scope.

(** ** velux_club.py *)

Module VeluxClub.

Record instance : Type := mk_instance { headers : list (string * string) }.

Definition API_URL : string := "https://api.club.velux.com/api/v1/datalake/".

Definition build_query (source from_date to_date api_url region : string)
  : outcome string :=
  if py_in source ["jobs"; "product"; "company"] then
    if (from_date =? "") || (to_date =? "") then
      Return "Introduce a 'FROM Date' and 'To Date'"
    else
      Return (api_url ++ source ++ "?from=" ++ from_date ++ "&to=" ++ to_date
                ++ "&region&limit=100")
  else if str_contains "survey" source then
    Return (api_url ++ source ++ "?language=en&type=question")
  else
    Return "pick one these sources: jobs, product, company, survey".

Section Fetch.

(** The world outside: [server log rq] is what comes back, already parsed
    by [response.json()], for request [rq] when [log] lists the requests
    answered before it; [inl] is a failure of the transport or of the
    decoding.  [repr] is Python's [str()] on a parsed value that is not
    itself a string.  [pandas df] is what pandas raises when asked for
    the call that [df] records, and [None] when it carries the call
    out. *)
Variable server : list request -> request -> string + json.
Variable repr : json -> string.
Variable pandas : DataFrame -> option pandas_exn.

(** A pandas call: the frame, or the exception pandas raises. *)
Definition call (df : DataFrame) : outcome DataFrame :=
  match pandas df with
  | Some e => Raise (raise_pandas e)
  | None => Return df
  end.

(** [requests.request("GET", url, headers=headers)] followed by [.json()]. *)
Definition request_json (u : string) (h : list (string * string)) : io json :=
  fun log =>
    let rq := mk_request "GET" u h in
    Some (match server log rq with
          | inl description => Raise (LibraryError description)
          | inr payload => Return payload
          end, (log ++ [rq])%list).

(** A value inside an f-string. *)
Definition format_value (v : json) : string :=
  match v with
  | JStr s => s
  | _ => repr v
  end.

(** The [while] loop of [get_response]: [response] is the last payload
    received and [df] the frame built so far.  One unit of [fuel] is
    spent on each test of the loop condition. *)
Fixpoint next_pages (fuel : nat) (self : instance) (source from_date to_date : string)
    (response : json) (df : DataFrame) : io DataFrame :=
  match fuel with
  | O => fun _ => None
  | S fuel' =>
      (next_page_url <- lift (getitem response "next_page_url") ;;
       if is_not_None next_page_url then
         let u := format_value next_page_url ++ "&from=" ++ from_date
                    ++ "&to=" ++ to_date ++ "&region&limit=100" in
         response' <- request_json u (headers self) ;;
         data <- lift (getitem response' "data") ;;
         df_page <- lift (call (pd_DataFrame data)) ;;
         df_page <- lift (if source =? "product" then call (df_T df_page)
                          else Return df_page) ;;
         df <- lift (call (pd_concat df df_page)) ;;
         next_pages fuel' self source from_date to_date response' df
       else ret df)%io
  end.

(** The [if]/[elif]/[else] that computes [keys_list]. *)
Definition keys_list_of (response : json) : outcome (list string) :=
  match response with
  | JDict _ => keys response
  | JList items => obind (getitem0 items) keys
  | _ => Return []
  end.

(** The body of [get_response] from "Preparing the Query" on: the first
    request, the inspection of its payload, and the pages after it. *)
Definition fetch (fuel : nat) (self : instance)
    (source from_date to_date region : string) : io DataFrame :=
  (u <- lift (build_query source from_date to_date API_URL region) ;;
   response <- request_json u (headers self) ;;
   keys_list <- lift (keys_list_of response) ;;
   if py_in "data" keys_list then
     data <- lift (getitem response "data") ;;
     df <- lift (call (pd_DataFrame data)) ;;
     next_pages fuel self source from_date to_date response df
   else
     lift (call (pd_DataFrame response)))%io.

(** [get_response]: the argument checks, then [fetch]. *)
Definition get_response (fuel : nat) (self : instance)
    (source from_date to_date region : string) : io DataFrame :=
  if negb (py_in source ["jobs"; "product"; "company"; "survey"]) then
    throw (Source_NOK "The source has to be: jobs, product, company or survey")
  else
    (from_date_obj <- lift (strptime from_date) ;;
     oldest_date_obj <- lift (strptime "2022-03-22") ;;
     if (delta_days from_date_obj oldest_date_obj <? 0)%Z then
       throw (Historical_Too_Old "from_date cannot be earlier than 2023-03-22!!")
     else
       to_date_obj <- lift (strptime to_date) ;;
       if (delta_days to_date_obj from_date_obj <? 0)%Z then
         throw (Dates_NOK "to_date cannot be earlier than from_date!")
       else
         fetch fuel self source from_date to_date region)%io.

(** *** Vocabulary for the statements about pagination *)

(** The frame a page after the first is turned into. *)
Definition page_frame (source : string) (data : json) : DataFrame :=
  if source =? "product" then df_T (pd_DataFrame data) else pd_DataFrame data.

(** The request that follows a response whose "next_page_url" is [nx]. *)
Definition next_request (self : instance) (from_date to_date : string) (nx : json)
  : request :=
  mk_request "GET"
    (format_value nx ++ "&from=" ++ from_date ++ "&to=" ++ to_date
       ++ "&region&limit=100")
    (headers self).

Definition data_of (page : list (string * json)) : json :=
  match dict_get page "data" with
  | Some d => d
  | None => JNull
  end.

Definition next_of (page : list (string * json)) : json :=
  match dict_get page "next_page_url" with
  | Some nx => nx
  | None => JNull
  end.

(** The three pandas calls made for a page after the first, in the
    order of the loop body: the frame of its data, the transpose for the
    category product, the concatenation to the frame [df] built so far. *)
Definition add_page (source : string) (df : DataFrame) (data : json)
  : outcome DataFrame :=
  obind (call (pd_DataFrame data)) (fun df_page =>
  obind (if source =? "product" then call (df_T df_page) else Return df_page)
    (fun df_page => call (pd_concat df df_page))).

(** pandas carries out the three calls made for a page after the first:
    the frame of its data, the transpose when the category asks for one,
    and the concatenation to the frame [acc] built so far. *)
Definition page_accepted (source : string) (acc : DataFrame) (data : json) : Prop :=
  pandas (pd_DataFrame data) = None
  /\ pandas (page_frame source data) = None
  /\ pandas (pd_concat acc (page_frame source data)) = None.

(** pandas carries out every call made for the pages [datas] that follow
    the frame [acc]. *)
Fixpoint pages_accepted (source : string) (acc : DataFrame) (datas : list json)
  : Prop :=
  match datas with
  | [] => True
  | d :: rest =>
      page_accepted source acc d
      /\ pages_accepted source (pd_concat acc (page_frame source d)) rest
  end.

(** The frames the loop can hold when every page has its data in [P]. *)
Inductive accumulated (source : string) (P : json -> Prop) : DataFrame -> Prop :=
| accumulated_first (d : json) :
    P d -> accumulated source P (pd_DataFrame d)
| accumulated_next (acc : DataFrame) (d : json) :
    accumulated source P acc -> P d ->
    accumulated source P (pd_concat acc (page_frame source d)).

(** [cursor_chain self from_date to_date log rq page later]: asked [rq]
    after [log], the server answers the dict [page]; each dict but the
    last names a next page, and the server answers the request for it
    with the following dict of [later]. *)
Fixpoint cursor_chain (self : instance) (from_date to_date : string)
    (log : list request) (rq : request)
    (page : list (string * json)) (later : list (list (string * json))) : Prop :=
  server log rq = inr (JDict page) /\
  match later with
  | [] => True
  | page' :: later' =>
      exists nx, dict_get page "next_page_url" = Some nx /\ nx <> JNull /\
        cursor_chain self from_date to_date (log ++ [rq])%list
          (next_request self from_date to_date nx) page' later'
  end.

(** The requests issued along such a chain, in order. *)
Fixpoint chain_requests (self : instance) (from_date to_date : string)
    (rq : request) (page : list (string * json))
    (later : list (list (string * json))) : list request :=
  rq :: match later with
        | [] => []
        | page' :: later' =>
            chain_requests self from_date to_date
              (next_request self from_date to_date (next_of page)) page' later'
        end.

End Fetch.

(** The date the literal "2022-03-22" of [get_response] stands for. *)
Definition oldest_date : datetime := mk_datetime 2022 3 22.

(** Every page of a frame went through [.T] before it was concatenated. *)
Fixpoint every_page_transposed (df : DataFrame) : bool :=
  match df with
  | pd_concat a b => every_page_transposed a && every_page_transposed b
  | df_T (pd_DataFrame _) => true
  | _ => false
  end.

(** *** Servers to run the model on *)

Definition no_repr (v : json) : string := "".

(** pandas on the payloads of the runs below: [pd.DataFrame] raises
    [ValueError] for a bare string, number or boolean and for a dict
    whose values are all scalars; the other calls of those runs are
    carried out.  It says nothing of pandas beyond those runs. *)
Definition is_scalar (v : json) : bool :=
  match v with
  | JList _ | JDict _ => false
  | _ => true
  end.

Definition pandas_on_examples (df : DataFrame) : option pandas_exn :=
  match df with
  | pd_DataFrame (JDict []) => None
  | pd_DataFrame (JDict entries) =>
      if forallb (fun kv => is_scalar (snd kv)) entries
      then Some PValueError else None
  | pd_DataFrame (JStr _) | pd_DataFrame (JInt _)
  | pd_DataFrame (JFloat _ _) | pd_DataFrame (JBool _) => Some PValueError
  | _ => None
  end.

(** A server that is never reached. *)
Definition offline : list request -> request -> string + json :=
  fun _ _ => inl "connection refused".

(** A server with two pages: the first request is answered with page 1 and
    the address of page 2, the second with page 2 and no next page. *)
Definition page1 : list (string * json) :=
  [("data", JList [JDict [("id", JInt 1)]; JDict [("id", JInt 2)]]);
   ("next_page_url", JStr "https://api.club.velux.com/api/v1/datalake/product?page=2")].

Definition page2 : list (string * json) :=
  [("data", JDict [("2", JDict [("id", JInt 3)])]);
   ("next_page_url", JNull)].

Definition two_pages : list request -> request -> string + json :=
  fun log _ =>
    match log with
    | [] => inr (JDict page1)
    | [_] => inr (JDict page2)
    | _ => inl "no such page"
    end.

(** A server whose only page has no "next_page_url" entry. *)
Definition no_cursor : list request -> request -> string + json :=
  fun _ _ => inr (JDict [("data", JList [JDict [("id", JInt 1)]])]).

(** A server that answers with a list. *)
Definition answers_list (items : list json) : list request -> request -> string + json :=
  fun _ _ => inr (JList items).

Definition demo : instance :=
  mk_instance [("Authorization", "Bearer secret"); ("Content-Type", "application/json")].

(** The requests an extraction from 2022-03-22 to 2022-04-21 issues: the
    two of a product extraction against [two_pages], and the first of a
    jobs extraction. *)
Definition first_request : request :=
  mk_request "GET"
    "https://api.club.velux.com/api/v1/datalake/product?from=2022-03-22&to=2022-04-21&region&limit=100"
    (headers demo).

Definition jobs_request : request :=
  mk_request "GET"
    "https://api.club.velux.com/api/v1/datalake/jobs?from=2022-03-22&to=2022-04-21&region&limit=100"
    (headers demo).

Definition second_request : request :=
  mk_request "GET"
    "https://api.club.velux.com/api/v1/datalake/product?page=2&from=2022-03-22&to=2022-04-21&region&limit=100"
    (headers demo).

(** *** __init__

    [local_config] is the configuration dict of the package and
    [kwargs] the keyword arguments that matched no named parameter.
    Values typed [Any] are parsed-JSON values, [JNull] being [None].
    The outcome is either the exception raised or the instance with what
    is handed on to the base class. *)
Inductive init_error : Type :=
| CredentialError (message : string)
| InitRaise (e : exn).

Record constructed : Type :=
  mk_constructed { self_of : instance;
                   base_credentials : json;
                   base_kwargs : list (string * json) }.

(** [d.get(key)]: [None] when the key is missing. *)
Definition dict_get_default (d : list (string * json)) (key : string) : json :=
  match dict_get d key with
  | Some v => v
  | None => JNull
  end.

(** [d.pop(key, default)]: the value and the dict without the key. *)
Definition dict_pop (d : list (string * json)) (key : string) (default : json)
  : json * list (string * json) :=
  (match dict_get d key with
   | Some v => v
   | None => default
   end,
   filter (fun kv => negb (fst kv =? key)) d).

(** ["Bearer " + v]: only a string can be appended to a string. *)
Definition str_add (a : string) (v : json) : outcome string :=
  match v with
  | JStr s => Return (a ++ s)
  | _ => Raise TypeError
  end.

Definition init (local_config : list (string * json)) (credentials : json)
    (kwargs : list (string * json)) : init_error + constructed :=
  let DEFAULT_CREDENTIALS := dict_get_default local_config "VELUX_CLUB" in
  let '(credentials, kwargs) := dict_pop kwargs "credentials" DEFAULT_CREDENTIALS in
  match credentials with
  | JNull => inl (CredentialError "Missing credentials.")
  | _ =>
      match obind (getitem credentials "TOKEN") (str_add "Bearer ") with
      | Raise e => inl (InitRaise e)
      | Return authorization =>
          inr (mk_constructed
                 (mk_instance [("Authorization", authorization);
                               ("Content-Type", "application/json")])
                 credentials kwargs)
      end
  end.

(** *** Vocabulary for the statements about requests *)

(** What a request after the first looks like: a GET with the instance's
    headers of an address followed by the parameters of the call. *)
Definition follow_up (self : instance) (from_date to_date : string) (rq : request)
  : Prop :=
  method rq = "GET" /\ req_headers rq = headers self /\
  exists address : string,
    url rq = address ++ "&from=" ++ from_date ++ "&to=" ++ to_date
               ++ "&region&limit=100".

(** The arguments pass the three checks of [get_response]. *)
Definition checked (source from_date to_date : string) : Prop :=
  In source ["jobs"; "product"; "company"; "survey"]
  /\ exists f t : datetime,
       strptime from_date = Return f /\ ~ date_lt f (mk_datetime 2022 3 22)
       /\ strptime to_date = Return t /\ ~ date_lt t f.

(** The URL of the first request for arguments that pass the checks. *)
Definition first_url (source from_date to_date : string) : string :=
  if source =? "survey"
  then API_URL ++ "survey?language=en&type=question"
  else API_URL ++ source ++ "?from=" ++ from_date ++ "&to=" ++ to_date
         ++ "&region&limit=100".

(** A payload in which [get_response] finds no "data" key: a dict without
    that entry, or a value that is neither a dict nor a list. *)
Definition without_data (payload : json) : Prop :=
  match payload with
  | JDict entries => dict_get entries "data" = None
  | JList _ => False
  | _ => True
  end.

(** *** More servers to run the model on *)

(** A server that answers every request with the same payload. *)
Definition answers_with (payload : json) : list request -> request -> string + json :=
  fun _ _ => inr payload.

(** A server whose every page names a next page. *)
Definition endless : list request -> request -> string + json :=
  answers_with (JDict page1).

(** A server that answers the first request and then times out. *)
Definition times_out_after_first : list request -> request -> string + json :=
  fun log _ =>
    match log with
    | [] => inr (JDict page1)
    | _ => inl "read timed out"
    end.

End VeluxClub.

(** ** sql_server.py *)

Module SQLServer.

Definition DEFAULT_SCHEMA : string := "dbo".

(** The text of [list_table_info_query]. *)
Definition list_table_info_query (schema table : string) : string :=
  "
            SELECT *
            FROM sys.tables t
            JOIN sys.schemas s
                ON t.schema_id = s.schema_id
            WHERE s.name = '" ++ schema ++ "' AND t.name = '" ++ table ++ "'
        ".

(** [not schema] for an optional string: [None] and the empty string are
    falsy. *)
Definition falsy (schema : option string) : bool :=
  match schema with
  | None => true
  | Some s => s =? ""
  end.

Section Exists.

(** [self.run], inherited from the SQL base class: it sends the query text
    to the database and gives back the rows, or fails. *)
Variable row : Type.
Variable run : string -> string + list row.

(** [bool(rows)] *)
Definition truthy (rows : list row) : bool :=
  match rows with
  | [] => false
  | _ :: _ => true
  end.

Definition exists_ (table : string) (schema : option string) : outcome bool :=
  let schema := if falsy schema then DEFAULT_SCHEMA
                else match schema with Some s => s | None => DEFAULT_SCHEMA end in
  match run (list_table_info_query schema table) with
  | inl description => Raise (LibraryError description)
  | inr rows => Return (truthy rows)
  end.

End Exists.

Section Catalog.

(** [self.run] when every column of every row is a string. *)
Variable run : string -> string + list (list string).

(** [[schema_tuple[0] for schema_tuple in schemas_tuples]] *)
Fixpoint first_columns (rows : list (list string)) : outcome (list string) :=
  match rows with
  | [] => Return []
  | r :: rest =>
      match r with
      | [] => Raise IndexError
      | x :: _ => obind (first_columns rest) (fun xs => Return (x :: xs))
      end
  end.

Definition schemas : outcome (list string) :=
  match run "SELECT s.name as schema_name from sys.schemas s" with
  | inl description => Raise (LibraryError description)
  | inr schemas_tuples => first_columns schemas_tuples
  end.

Definition tables : outcome (list string) :=
  match run "SELECT schema_name(t.schema_id), t.name FROM sys.tables t" with
  | inl description => Raise (LibraryError description)
  | inr tables_tuples => Return (map (String.concat ".") tables_tuples)
  end.

End Catalog.

(** A string without the character [c]. *)
Definition free_of (c : ascii) (s : string) : Prop :=
  ~ In c (list_ascii_of_string s).

End SQLServer.

(** ** Facts about the string helpers *)

Lemma py_in_In (x : string) (l : list string) :
  py_in x l = true <-> In x l.
Proof.
  unfold py_in. rewrite existsb_exists. split.
  - intros [y [Hy Heq]]. apply String.eqb_eq in Heq. now subst.
  - intros H. exists x. split; [assumption | apply String.eqb_refl].
Qed.

Lemma prefix_app (p s : string) :
  prefix p s = true <-> exists post, s = p ++ post.
Proof.
  revert s. induction p as [|c p IH]; intros s; simpl.
  - split; [intros _; now exists s | intros _; now destruct s].
  - destruct s as [|d s].
    + split; [discriminate | intros [post H]; discriminate].
    + simpl. destruct (ascii_dec c d) as [->|Hne].
      * rewrite IH. split; intros [post H]; exists post.
        -- now rewrite H.
        -- now injection H.
      * split; [discriminate|]. intros [post H]. injection H as H1 _. congruence.
Qed.

Lemma str_contains_spec (hay needle : string) :
  str_contains hay needle = true <->
  exists pre post, hay = pre ++ needle ++ post.
Proof.
  induction hay as [|c hay IH]; cbn [str_contains].
  - rewrite orb_false_r, prefix_app. split.
    + intros [post H]. now exists "", post.
    + intros [pre [post H]]. destruct pre; simpl in H.
      * now exists post.
      * discriminate.
  - rewrite orb_true_iff, prefix_app, IH. split.
    + intros [[post H] | [pre [post H]]].
      * now exists "", post.
      * exists (String c pre), post. simpl. now rewrite H.
    + intros [pre [post H]]. destruct pre as [|d pre]; simpl in H.
      * left. now exists post.
      * right. injection H as _ H. now exists pre, post.
Qed.

(** ** build_query *)

Section BuildQuery.

Import VeluxClub.

Variables (from_date to_date api_url region : string).

(** C1 (as the code has it): for a category in {jobs, product, company}
    and a window with an empty bound, [build_query] raises nothing: it
    returns the text "Introduce a 'FROM Date' and 'To Date'" as its
    ordinary result, and no URL is built. *)
Theorem build_query_empty_bound_returns_message (source : string) :
  In source ["jobs"; "product"; "company"] ->
  from_date = "" \/ to_date = "" ->
  build_query source from_date to_date api_url region
  = Return "Introduce a 'FROM Date' and 'To Date'".
Proof.
  intros Hsrc Hempty. unfold build_query.
  apply py_in_In in Hsrc. rewrite Hsrc.
  destruct Hempty as [-> | ->]; [reflexivity|].
  now rewrite String.eqb_refl, orb_true_r.
Qed.

(** C2 (as the code has it): for a category that is none of jobs, product
    and company and does not occur inside the word "survey",
    [build_query] raises nothing: it returns the text that lists the
    valid sources as its ordinary result, and no URL is built. *)
Theorem build_query_unknown_source_returns_message (source : string) :
  ~ In source ["jobs"; "product"; "company"] ->
  (~ exists pre post, "survey" = pre ++ source ++ post) ->
  build_query source from_date to_date api_url region
  = Return "pick one these sources: jobs, product, company, survey".
Proof.
  intros Hsrc Hsub. unfold build_query.
  destruct (py_in source ["jobs"; "product"; "company"]) eqn:E.
  - apply py_in_In in E. contradiction.
  - destruct (str_contains "survey" source) eqn:E'; [|reflexivity].
    apply str_contains_spec in E'. contradiction.
Qed.

End BuildQuery.

(** C8: for the category survey, [build_query] returns the URL made of
    the base address, the category and the two fixed filters language
    and type, whatever the window and the region are; the URL built on
    the API's address has no from, to or region parameter. *)
Theorem build_query_survey_fixed (from_date to_date api_url region : string) :
  VeluxClub.build_query "survey" from_date to_date api_url region
  = Return (api_url ++ "survey?language=en&type=question")
  /\ (forall from_date' to_date' region' : string,
        VeluxClub.build_query "survey" from_date' to_date' api_url region'
        = VeluxClub.build_query "survey" from_date to_date api_url region)
  /\ str_contains (VeluxClub.API_URL ++ "survey?language=en&type=question") "from=" = false
  /\ str_contains (VeluxClub.API_URL ++ "survey?language=en&type=question") "to=" = false
  /\ str_contains (VeluxClub.API_URL ++ "survey?language=en&type=question") "region" = false.
Proof.
  repeat split; reflexivity.
Qed.

Lemma build_query_empty_bound_witness :
  VeluxClub.build_query "product" "2022-03-22" "" VeluxClub.API_URL "null"
  = Return "Introduce a 'FROM Date' and 'To Date'".
Proof.
  apply build_query_empty_bound_returns_message.
  - simpl. auto.
  - right. reflexivity.
Defined.

(** C1, the claim as worded fails: with an empty start date
    [build_query] returns a string and raises nothing. *)
Lemma build_query_empty_bound_no_raise :
  VeluxClub.build_query "jobs" "" "2022-04-01" VeluxClub.API_URL "null"
  = Return "Introduce a 'FROM Date' and 'To Date'"
  /\ (forall e : exn,
        VeluxClub.build_query "jobs" "" "2022-04-01" VeluxClub.API_URL "null"
        <> Raise e).
Proof.
  split; [reflexivity | intros e; discriminate].
Qed.

Lemma build_query_unknown_source_witness :
  VeluxClub.build_query "orders" "2022-03-22" "2022-04-01" VeluxClub.API_URL "null"
  = Return "pick one these sources: jobs, product, company, survey".
Proof.
  apply build_query_unknown_source_returns_message.
  - simpl. intros [H|[H|[H|[]]]]; discriminate.
  - rewrite <- str_contains_spec. vm_compute. discriminate.
Defined.

(** C2, the claim as worded fails: "urv" occurs inside "survey", so a
    URL is built for it; and for "orders" the text listing the sources is
    returned, not raised. *)
Lemma build_query_substring_builds_url :
  VeluxClub.build_query "urv" "2022-03-22" "2022-04-01" VeluxClub.API_URL "null"
  = Return "https://api.club.velux.com/api/v1/datalake/urv?language=en&type=question"
  /\ VeluxClub.build_query "orders" "2022-03-22" "2022-04-01" VeluxClub.API_URL "null"
     = Return "pick one these sources: jobs, product, company, survey".
Proof.
  split; reflexivity.
Qed.

(** ** SQLServer.exists *)

(** C9: [exists] returns true exactly when the metadata query, whose
    WHERE clause names the schema and the table, gives at least one row,
    and false exactly when it gives none; without a schema, or with an
    empty one, the schema "dbo" is used. *)
Theorem exists_iff_query_has_row (row : Type) (run : string -> string + list row)
    (table : string) (schema : option string) :
  let schema' := match schema with
                 | None => "dbo"
                 | Some s => if s =? "" then "dbo" else s
                 end in
  let query := "
            SELECT *
            FROM sys.tables t
            JOIN sys.schemas s
                ON t.schema_id = s.schema_id
            WHERE s.name = '" ++ schema' ++ "' AND t.name = '" ++ table ++ "'
        " in
  (SQLServer.exists_ row run table schema = Return true
   <-> exists r rows, run query = inr (r :: rows))
  /\ (SQLServer.exists_ row run table schema = Return false
      <-> run query = inr [])
  /\ SQLServer.exists_ row run table None
     = SQLServer.exists_ row run table (Some "dbo")
  /\ SQLServer.exists_ row run table (Some "")
     = SQLServer.exists_ row run table (Some "dbo").
Proof.
  intros schema' query.
  assert (Hq : SQLServer.exists_ row run table schema
               = match run query with
                 | inl description => Raise (LibraryError description)
                 | inr rows => Return (SQLServer.truthy row rows)
                 end).
  { unfold SQLServer.exists_, SQLServer.falsy, query, schema'.
    destruct schema as [s|]; [|reflexivity].
    destruct (s =? "") eqn:E; reflexivity. }
  rewrite Hq. repeat split.
  - destruct (run query) as [d|[|r rows]]; try discriminate. now exists r, rows.
  - intros [r [rows ->]]. reflexivity.
  - destruct (run query) as [d|[|r rows]]; try discriminate. reflexivity.
  - intros ->. reflexivity.
Qed.

(** ** The calendar: ordinals follow the calendar order *)

Section Calendar.

Local Open Scope Z_scope.

Lemma days_before_year_succ (y : Z) :
  days_before_year (y + 1) = days_before_year y + 365 + leap_day y.
Proof.
  unfold days_before_year, leap_day, is_leap.
  replace (y + 1 - 1) with y by lia.
  destruct (Z.eqb_spec (y mod 4) 0), (Z.eqb_spec (y mod 100) 0),
    (Z.eqb_spec (y mod 400) 0); cbn [negb andb orb];
    Z.div_mod_to_equations; lia.
Qed.

Lemma days_before_year_mono (y1 y2 : Z) :
  y1 <= y2 -> days_before_year y1 <= days_before_year y2.
Proof.
  intros H. replace y2 with (y1 + Z.of_nat (Z.to_nat (y2 - y1))) by lia.
  induction (Z.to_nat (y2 - y1)) as [|n IH].
  - replace (y1 + Z.of_nat 0) with y1 by lia. lia.
  - replace (y1 + Z.of_nat (S n)) with (y1 + Z.of_nat n + 1) by lia.
    rewrite days_before_year_succ. unfold leap_day.
    destruct (is_leap _); lia.
Qed.

Lemma month_cases (m : Z) :
  1 <= m <= 12 ->
  m = 1 \/ m = 2 \/ m = 3 \/ m = 4 \/ m = 5 \/ m = 6 \/
  m = 7 \/ m = 8 \/ m = 9 \/ m = 10 \/ m = 11 \/ m = 12.
Proof. lia. Qed.

Lemma valid_date_bounds (y m d : Z) :
  valid_date y m d = true ->
  1 <= y <= 9999 /\ 1 <= m <= 12 /\ 1 <= d <= days_in_month y m.
Proof.
  unfold valid_date. rewrite !andb_true_iff, !Z.leb_le. lia.
Qed.

Ltac month_tables :=
  repeat match goal with
    | |- context [nth ?n ?l ?d] =>
        let v := eval vm_compute in (nth n l d) in change (nth n l d) with v
    | |- context [(?a =? ?b)%Z] =>
        let v := eval vm_compute in (a =? b)%Z in change (a =? b)%Z with v
    | |- context [(?a <? ?b)%Z] =>
        let v := eval vm_compute in (a <? b)%Z in change (a <? b)%Z with v
    end;
  cbn [andb].

Ltac each_month H :=
  destruct (month_cases _ H) as
    [->|[->|[->|[->|[->|[->|[->|[->|[->|[->|[->| ->]]]]]]]]]]].

Lemma day_of_year_bounds (y m d : Z) :
  1 <= m <= 12 -> 1 <= d <= days_in_month y m ->
  1 <= days_before_month y m + d <= 365 + leap_day y.
Proof.
  intros Hm. unfold leap_day, days_in_month, days_before_month.
  each_month Hm; destruct (is_leap y); month_tables; lia.
Qed.

Lemma day_of_year_month_lt (y m1 d1 m2 d2 : Z) :
  1 <= m1 <= 12 -> 1 <= m2 <= 12 ->
  1 <= d1 <= days_in_month y m1 -> 1 <= d2 <= days_in_month y m2 ->
  m1 < m2 ->
  days_before_month y m1 + d1 < days_before_month y m2 + d2.
Proof.
  intros Hm1 Hm2. unfold days_in_month, days_before_month.
  each_month Hm1; each_month Hm2; try lia; destruct (is_leap y); month_tables; lia.
Qed.

Lemma toordinal_lt (a b : datetime) :
  valid a -> valid b -> date_lt a b -> toordinal a < toordinal b.
Proof.
  unfold valid. intros Ha Hb Hlt.
  apply valid_date_bounds in Ha, Hb.
  destruct Ha as (Hya & Hma & Hda), Hb as (Hyb & Hmb & Hdb).
  unfold toordinal.
  destruct Hlt as [Hy | [Hy [Hm | [Hm Hd]]]].
  - pose proof (day_of_year_bounds _ _ _ Hma Hda).
    pose proof (day_of_year_bounds _ _ _ Hmb Hdb).
    pose proof (days_before_year_succ (year a)).
    pose proof (days_before_year_mono (year a + 1) (year b)).
    lia.
  - rewrite Hy in *.
    pose proof (day_of_year_month_lt _ _ _ _ _ Hma Hmb Hda Hdb Hm). lia.
  - rewrite Hy, Hm. lia.
Qed.

Lemma date_trichotomy (a b : datetime) :
  date_lt a b \/ a = b \/ date_lt b a.
Proof.
  destruct a as [ya ma da], b as [yb mb db]. unfold date_lt; simpl.
  destruct (Z.lt_trichotomy ya yb) as [?|[->|?]]; [lia| |lia].
  destruct (Z.lt_trichotomy ma mb) as [?|[->|?]]; [lia| |lia].
  destruct (Z.lt_trichotomy da db) as [?|[->|?]]; [lia| |lia].
  right; left; reflexivity.
Qed.

Lemma toordinal_lt_iff (a b : datetime) :
  valid a -> valid b -> (toordinal a < toordinal b <-> date_lt a b).
Proof.
  intros Ha Hb. split; [|now apply toordinal_lt].
  intros H. destruct (date_trichotomy a b) as [?|[->|Hgt]]; [assumption|lia|].
  apply toordinal_lt in Hgt; [lia|assumption..].
Qed.

Lemma strptime_valid (s : string) (d : datetime) :
  strptime s = Return d -> valid d.
Proof.
  unfold strptime, valid.
  destruct (re_Ymd s) as [|[[[y m] dd] rest] l]; [discriminate|].
  destruct (negb (rest =? "")%string); [discriminate|].
  destruct (valid_date y m dd) eqn:E; [|discriminate].
  intros H. injection H as <-. exact E.
Qed.

Lemma strptime_raise (s : string) (e : exn) :
  strptime s = Raise e -> e = ValueError.
Proof.
  unfold strptime.
  destruct (re_Ymd s) as [|[[[y m] dd] rest] l]; [congruence|].
  destruct (negb (rest =? "")%string); [congruence|].
  destruct (valid_date y m dd); congruence.
Qed.

End Calendar.
(** ** get_response: the argument checks *)

Section GetResponse.

Import VeluxClub.

Variable server : list request -> request -> string + json.
Variable repr : json -> string.
Variable pandas : DataFrame -> option pandas_exn.
Variables (fuel : nat) (self : instance).
Variables (source from_date to_date region : string).

Lemma valid_oldest : valid oldest_date.
Proof. reflexivity. Qed.

Lemma delta_days_neg (a b : datetime) :
  valid a -> valid b -> ((delta_days a b <? 0)%Z = true <-> date_lt a b).
Proof.
  intros Ha Hb. unfold delta_days. rewrite Z.ltb_lt.
  rewrite <- (toordinal_lt_iff a b Ha Hb). lia.
Qed.

Lemma delta_days_nonneg (a b : datetime) :
  valid a -> valid b -> ~ date_lt a b -> (delta_days a b <? 0)%Z = false.
Proof.
  intros Ha Hb Hn. destruct (delta_days a b <? 0)%Z eqn:E; [|reflexivity].
  apply delta_days_neg in E; [contradiction|assumption..].
Qed.

Lemma get_response_known (log : list request) :
  In source ["jobs"; "product"; "company"; "survey"] ->
  get_response server repr pandas fuel self source from_date to_date region log
  = (from_date_obj <- lift (strptime from_date) ;;
     if (delta_days from_date_obj oldest_date <? 0)%Z then
       throw (Historical_Too_Old "from_date cannot be earlier than 2023-03-22!!")
     else
       to_date_obj <- lift (strptime to_date) ;;
       if (delta_days to_date_obj from_date_obj <? 0)%Z then
         throw (Dates_NOK "to_date cannot be earlier than from_date!")
       else
         fetch server repr pandas fuel self source from_date to_date region)%io log.
Proof.
  intros Hsrc. unfold get_response. apply py_in_In in Hsrc. rewrite Hsrc.
  cbn [negb]. unfold bind at 1 3. unfold lift at 1 3.
  destruct (strptime from_date); reflexivity.
Qed.

Lemma get_response_from_ok (log : list request) (f : datetime) :
  In source ["jobs"; "product"; "company"; "survey"] ->
  strptime from_date = Return f ->
  ~ date_lt f oldest_date ->
  get_response server repr pandas fuel self source from_date to_date region log
  = (to_date_obj <- lift (strptime to_date) ;;
     if (delta_days to_date_obj f <? 0)%Z then
       throw (Dates_NOK "to_date cannot be earlier than from_date!")
     else
       fetch server repr pandas fuel self source from_date to_date region)%io log.
Proof.
  intros Hsrc Hf Hfloor. rewrite get_response_known by assumption.
  unfold bind at 1. unfold lift at 1. rewrite Hf.
  rewrite delta_days_nonneg; try assumption.
  - reflexivity.
  - now apply strptime_valid with from_date.
  - exact valid_oldest.
Qed.

Lemma get_response_checked (log : list request) (f t : datetime) :
  In source ["jobs"; "product"; "company"; "survey"] ->
  strptime from_date = Return f ->
  ~ date_lt f oldest_date ->
  strptime to_date = Return t ->
  ~ date_lt t f ->
  get_response server repr pandas fuel self source from_date to_date region log
  = fetch server repr pandas fuel self source from_date to_date region log.
Proof.
  intros Hsrc Hf Hfloor Ht Hord.
  rewrite (get_response_from_ok log f) by assumption.
  unfold bind, lift. rewrite Ht.
  rewrite delta_days_nonneg; try assumption.
  - reflexivity.
  - now apply strptime_valid with to_date.
  - now apply strptime_valid with from_date.
Qed.


(** ** get_response: what the fetch can raise *)

Lemma raise_pandas_exn (e : pandas_exn) : fetch_exn (raise_pandas e).
Proof. destruct e; exact I. Qed.

Lemma call_accept (df : DataFrame) :
  pandas df = None -> call pandas df = Return df.
Proof. unfold call. now intros ->. Qed.

Lemma call_Return (df df' : DataFrame) :
  call pandas df = Return df' -> df' = df /\ pandas df = None.
Proof.
  unfold call. destruct (pandas df); [discriminate|].
  intros H. injection H as <-. now split.
Qed.

Lemma call_Raise (df : DataFrame) (e : exn) :
  call pandas df = Raise e -> exists pe, pandas df = Some pe /\ e = raise_pandas pe.
Proof.
  unfold call. destruct (pandas df) as [pe|]; [|discriminate].
  intros H. injection H as <-. now exists pe.
Qed.

Lemma add_page_accept (df : DataFrame) (data : json) :
  page_accepted pandas source df data ->
  add_page pandas source df data = Return (pd_concat df (page_frame source data)).
Proof.
  intros (H1 & H2 & H3). unfold add_page, page_frame in *.
  rewrite (call_accept _ H1). cbn [obind].
  destruct (source =? "product").
  - rewrite (call_accept _ H2). cbn [obind]. now apply call_accept.
  - cbn [obind]. now apply call_accept.
Qed.

Lemma add_page_Return (df df' : DataFrame) (data : json) :
  add_page pandas source df data = Return df' ->
  df' = pd_concat df (page_frame source data)
  /\ page_accepted pandas source df data.
Proof.
  unfold add_page, page_accepted, page_frame.
  destruct (call pandas (pd_DataFrame data)) as [p|] eqn:H1; [|discriminate].
  apply call_Return in H1. destruct H1 as [-> H1]. cbn [obind].
  destruct (source =? "product").
  - destruct (call pandas (df_T (pd_DataFrame data))) as [p|] eqn:H2;
      [|discriminate].
    apply call_Return in H2. destruct H2 as [-> H2]. cbn [obind].
    intros H3. apply call_Return in H3. destruct H3 as [-> H3]. now repeat split.
  - cbn [obind]. intros H3. apply call_Return in H3. destruct H3 as [-> H3].
    now repeat split.
Qed.

Lemma add_page_Raise (df : DataFrame) (data : json) (e : exn) :
  add_page pandas source df data = Raise e -> fetch_exn e.
Proof.
  unfold add_page.
  destruct (call pandas (pd_DataFrame data)) as [p|e1] eqn:H1; cbn [obind].
  - destruct (if source =? "product" then call pandas (df_T p) else Return p)
      as [q|e2] eqn:H2; cbn [obind].
    + intros H3. apply call_Raise in H3. destruct H3 as (pe & _ & ->).
      apply raise_pandas_exn.
    + intros H. injection H as <-. destruct (source =? "product"); [|discriminate].
      apply call_Raise in H2. destruct H2 as (pe & _ & ->). apply raise_pandas_exn.
  - intros H. injection H as <-.
    apply call_Raise in H1. destruct H1 as (pe & _ & ->). apply raise_pandas_exn.
Qed.

(** One turn of the loop, with the three pandas calls taken together. *)
Lemma next_pages_S (n : nat) (response : json) (df : DataFrame)
    (log : list request) :
  next_pages server repr pandas (S n) self source from_date to_date response df log
  = (next_page_url <- lift (getitem response "next_page_url") ;;
     if is_not_None next_page_url then
       response' <- request_json server
                      (format_value repr next_page_url ++ "&from=" ++ from_date
                         ++ "&to=" ++ to_date ++ "&region&limit=100")
                      (headers self) ;;
       data <- lift (getitem response' "data") ;;
       df' <- lift (add_page pandas source df data) ;;
       next_pages server repr pandas n self source from_date to_date response' df'
     else ret df)%io log.
Proof.
  cbn [next_pages]. unfold bind, lift, ret, add_page.
  destruct (getitem response "next_page_url") as [nx|]; [|reflexivity].
  destruct (is_not_None nx); [|reflexivity].
  destruct (request_json server _ (headers self) log) as [[[payload|] log1]|];
    try reflexivity.
  destruct (getitem payload "data") as [data|]; [|reflexivity].
  destruct (call pandas (pd_DataFrame data)) as [p|]; [|reflexivity].
  cbn [obind].
  destruct (if source =? "product" then call pandas (df_T p) else Return p)
    as [q|]; reflexivity.
Qed.

Lemma getitem_exn (v : json) (key : string) (e : exn) :
  getitem v key = Raise e -> fetch_exn e.
Proof.
  unfold getitem. destruct v; try (intros H; injection H as <-; exact I).
  destruct (dict_get entries key); [discriminate|].
  intros H; injection H as <-; exact I.
Qed.

Lemma keys_list_of_exn (v : json) (e : exn) :
  keys_list_of v = Raise e -> fetch_exn e.
Proof.
  destruct v; try discriminate.
  cbn. destruct items as [|x rest]; cbn.
  - intros H; injection H as <-; exact I.
  - destruct x; try discriminate; intros H; injection H as <-; exact I.
Qed.

Lemma request_json_inv (u : string) (h : list (string * string))
    (log : list request) :
  request_json server u h log
  = Some (match server log (mk_request "GET" u h) with
          | inl description => Raise (LibraryError description)
          | inr payload => Return payload
          end, (log ++ [mk_request "GET" u h])%list).
Proof. reflexivity. Qed.

Lemma next_pages_exn (n : nat) :
  forall (response : json) (df : DataFrame) (log log' : list request) (e : exn),
    next_pages server repr pandas n self source from_date to_date response df log
    = Some (Raise e, log') ->
    fetch_exn e.
Proof.
  induction n as [|n IH]; intros response df log log' e.
  - discriminate.
  - rewrite next_pages_S. unfold bind at 1. unfold lift at 1.
    destruct (getitem response "next_page_url") as [nx|e0] eqn:Hnx.
    + destruct (is_not_None nx).
      * unfold bind at 1. rewrite request_json_inv.
        destruct (server log _) as [d|payload].
        -- intros H; injection H as <- _; exact I.
        -- unfold bind at 1. unfold lift at 1.
           destruct (getitem payload "data") as [data|e1] eqn:Hd.
           ++ unfold bind at 1. unfold lift at 1.
              destruct (add_page pandas source df data) as [df'|e2] eqn:Ha.
              ** apply IH.
              ** intros H; injection H as <- _. now apply add_page_Raise in Ha.
           ++ intros H; injection H as <- _. now apply getitem_exn in Hd.
      * discriminate.
    + intros H; injection H as <- _. now apply getitem_exn in Hnx.
Qed.

Lemma build_query_returns (s f t a r : string) :
  exists u, build_query s f t a r = Return u.
Proof.
  unfold build_query.
  destruct (py_in s _); [destruct (_ || _)|destruct (str_contains _ _)];
    eexists; reflexivity.
Qed.

Lemma fetch_exn_sound (log log' : list request) (e : exn) :
  fetch server repr pandas fuel self source from_date to_date region log
  = Some (Raise e, log') ->
  fetch_exn e.
Proof.
  unfold fetch.
  destruct (build_query_returns source from_date to_date API_URL region) as [u Hu].
  unfold bind at 1. unfold lift at 1. rewrite Hu.
  unfold bind at 1. rewrite request_json_inv.
  destruct (server log _) as [d|payload].
  - intros H; injection H as <- _; exact I.
  - unfold bind at 1. unfold lift at 1.
    destruct (keys_list_of payload) as [ks|e0] eqn:Hk.
    + destruct (py_in "data" ks).
      * unfold bind at 1. unfold lift at 1.
        destruct (getitem payload "data") as [data|e1] eqn:Hd.
        -- unfold bind at 1. unfold lift at 1.
           destruct (call pandas (pd_DataFrame data)) as [df|e2] eqn:Hc.
           ++ apply next_pages_exn.
           ++ intros H; injection H as <- _.
              apply call_Raise in Hc. destruct Hc as (pe & _ & ->).
              apply raise_pandas_exn.
        -- intros H; injection H as <- _. now apply getitem_exn in Hd.
      * unfold lift. intros H; injection H as H _.
        apply call_Raise in H. destruct H as (pe & _ & ->).
        apply raise_pandas_exn.
    + intros H; injection H as <- _. now apply keys_list_of_exn in Hk.
Qed.

(** C7: for a category outside {jobs, product, company, survey},
    [get_response] raises [Source_NOK] whatever the dates are, parsable
    or not, and issues no request. *)
Theorem get_response_unknown_source (log : list request) :
  ~ In source ["jobs"; "product"; "company"; "survey"] ->
  get_response server repr pandas fuel self source from_date to_date region log
  = Some (Raise (Source_NOK "The source has to be: jobs, product, company or survey"),
          log).
Proof.
  intros Hsrc. unfold get_response.
  destruct (py_in source _) eqn:E.
  - apply py_in_In in E. contradiction.
  - reflexivity.
Qed.

(** C5: for a known category, a [from_date] that parses to a date
    strictly earlier than 2022-03-22 makes [get_response] raise
    [Historical_Too_Old] without issuing a request; a [from_date] that
    parses to 2022-03-22 or later never ends in [Historical_Too_Old]. *)
Theorem get_response_historical_floor (log : list request) (f : datetime) :
  In source ["jobs"; "product"; "company"; "survey"] ->
  strptime from_date = Return f ->
  (date_lt f (mk_datetime 2022 3 22) ->
   get_response server repr pandas fuel self source from_date to_date region log
   = Some (Raise (Historical_Too_Old "from_date cannot be earlier than 2023-03-22!!"),
           log))
  /\ (~ date_lt f (mk_datetime 2022 3 22) ->
      forall (message : string) (log' : list request),
        get_response server repr pandas fuel self source from_date to_date region log
        <> Some (Raise (Historical_Too_Old message), log')).
Proof.
  intros Hsrc Hf. split.
  - intros Hlt. rewrite get_response_known by assumption.
    unfold bind, lift. rewrite Hf.
    assert (E : (delta_days f oldest_date <? 0)%Z = true).
    { apply delta_days_neg; [now apply strptime_valid with from_date
                            | exact valid_oldest | exact Hlt]. }
    rewrite E. reflexivity.
  - intros Hge message log'.
    rewrite (get_response_from_ok log f) by assumption.
    unfold bind, lift.
    destruct (strptime to_date) as [t|e] eqn:Ht.
    + destruct (delta_days t f <? 0)%Z.
      * discriminate.
      * intros H. apply fetch_exn_sound in H. exact H.
    + apply strptime_raise in Ht. subst e. discriminate.
Qed.

(** C6 (as the code has it): for a known category and a [from_date] that
    passed its check, a [to_date] that parses to a date strictly earlier
    than [from_date] makes [get_response] raise [Dates_NOK] without
    issuing a request; a [to_date] that does not parse makes it raise the
    [ValueError] of the parsing, also without issuing a request. *)
Theorem get_response_to_date_check (log : list request) (f : datetime) :
  In source ["jobs"; "product"; "company"; "survey"] ->
  strptime from_date = Return f ->
  ~ date_lt f (mk_datetime 2022 3 22) ->
  (forall t : datetime,
      strptime to_date = Return t -> date_lt t f ->
      get_response server repr pandas fuel self source from_date to_date region log
      = Some (Raise (Dates_NOK "to_date cannot be earlier than from_date!"), log))
  /\ ((forall t : datetime, strptime to_date <> Return t) ->
      get_response server repr pandas fuel self source from_date to_date region log
      = Some (Raise ValueError, log)).
Proof.
  intros Hsrc Hf Hge.
  rewrite (get_response_from_ok log f) by assumption.
  unfold bind, lift. split.
  - intros t Ht Hlt. rewrite Ht.
    assert (E : (delta_days t f <? 0)%Z = true).
    { apply delta_days_neg; [now apply strptime_valid with to_date
                            | now apply strptime_valid with from_date | exact Hlt]. }
    rewrite E. reflexivity.
  - intros Hno. destruct (strptime to_date) as [t|e] eqn:Ht.
    + now destruct (Hno t).
    + apply strptime_raise in Ht. now subst e.
Qed.

(** ** get_response: the pages *)

Lemma py_in_keys (entries : list (string * json)) (key : string) :
  py_in key (map fst entries) = true <-> dict_get entries key <> None.
Proof.
  induction entries as [|[k v] rest IH]; cbn.
  - split; [discriminate | congruence].
  - rewrite String.eqb_sym. destruct (k =? key)%string; cbn.
    + split; [discriminate | reflexivity].
    + exact IH.
Qed.

Lemma fetch_dict_data (log : list request) (u : string)
    (page : list (string * json)) :
  build_query source from_date to_date API_URL region = Return u ->
  server log (mk_request "GET" u (headers self)) = inr (JDict page) ->
  dict_get page "data" <> None ->
  fetch server repr pandas fuel self source from_date to_date region log
  = (df <- lift (call pandas (pd_DataFrame (data_of page))) ;;
     next_pages server repr pandas fuel self source from_date to_date (JDict page)
       df)%io (log ++ [mk_request "GET" u (headers self)])%list.
Proof.
  intros Hu Hs Hd. unfold fetch.
  unfold bind at 1. unfold lift at 1. rewrite Hu.
  unfold bind at 1. rewrite request_json_inv, Hs.
  unfold bind at 1. unfold lift at 1. cbn [keys_list_of keys].
  apply py_in_keys in Hd as Hin. rewrite Hin.
  unfold bind at 1. unfold lift at 1. unfold data_of. cbn [getitem].
  destruct (dict_get page "data"); [reflexivity | contradiction].
Qed.

Lemma fetch_dict_data_accepted (log : list request) (u : string)
    (page : list (string * json)) :
  build_query source from_date to_date API_URL region = Return u ->
  server log (mk_request "GET" u (headers self)) = inr (JDict page) ->
  dict_get page "data" <> None ->
  pandas (pd_DataFrame (data_of page)) = None ->
  fetch server repr pandas fuel self source from_date to_date region log
  = next_pages server repr pandas fuel self source from_date to_date (JDict page)
      (pd_DataFrame (data_of page)) (log ++ [mk_request "GET" u (headers self)])%list.
Proof.
  intros Hu Hs Hd Hp. rewrite (fetch_dict_data log u page Hu Hs Hd).
  unfold bind, lift. now rewrite (call_accept _ Hp).
Qed.

Lemma cursor_chain_head (log : list request) (rq : request)
    (page : list (string * json)) (later : list (list (string * json))) :
  cursor_chain server repr self from_date to_date log rq page later ->
  server log rq = inr (JDict page).
Proof. destruct later; cbn [cursor_chain]; intros [H _]; exact H. Qed.

(** One turn of the loop along a chain. *)
Lemma next_pages_step (n : nat) (page page' : list (string * json)) (nx : json)
    (df : DataFrame) (log : list request) :
  dict_get page "next_page_url" = Some nx ->
  nx <> JNull ->
  server log (next_request repr self from_date to_date nx) = inr (JDict page') ->
  dict_get page' "data" <> None ->
  page_accepted pandas source df (data_of page') ->
  next_pages server repr pandas (S n) self source from_date to_date (JDict page) df log
  = next_pages server repr pandas n self source from_date to_date (JDict page')
      (pd_concat df (page_frame source (data_of page')))
      (log ++ [next_request repr self from_date to_date nx])%list.
Proof.
  intros Hnx Hnn Hs Hd Hacc. rewrite next_pages_S.
  unfold bind at 1. unfold lift at 1. cbn [getitem]. rewrite Hnx.
  assert (Hnone : is_not_None nx = true)
    by (destruct nx; try reflexivity; congruence).
  rewrite Hnone. unfold bind at 1. rewrite request_json_inv.
  unfold next_request in Hs. rewrite Hs.
  unfold bind at 1. unfold lift at 1. cbn [getitem].
  assert (Hdo : dict_get page' "data" = Some (data_of page')).
  { unfold data_of. destruct (dict_get page' "data"); [reflexivity | contradiction]. }
  rewrite Hdo. unfold bind at 1. unfold lift at 1.
  rewrite (add_page_accept _ _ Hacc). reflexivity.
Qed.

(** Along a cursor chain whose pages pandas accepts, the loop asks for
    each next page in turn and ends at the last dict: with a frame when
    its "next_page_url" is [None], with a [KeyError] when it has no such
    entry. *)
Lemma next_pages_chain (later : list (list (string * json))) :
  forall (n : nat) (page : list (string * json)) (rq : request)
         (log : list request) (df : DataFrame),
    cursor_chain server repr self from_date to_date log rq page later ->
    Forall (fun p => dict_get p "data" <> None) later ->
    pages_accepted pandas source df (map data_of later) ->
    (length later < n)%nat ->
    (dict_get (last later page) "next_page_url" = Some JNull ->
     next_pages server repr pandas n self source from_date to_date (JDict page) df
       (log ++ [rq])%list
     = Some (Return (fold_left pd_concat
                       (map (fun p => page_frame source (data_of p)) later) df),
             (log ++ chain_requests repr self from_date to_date rq page later)%list))
    /\ (dict_get (last later page) "next_page_url" = None ->
        next_pages server repr pandas n self source from_date to_date (JDict page) df
          (log ++ [rq])%list
        = Some (Raise (KeyError "next_page_url"),
                (log ++ chain_requests repr self from_date to_date rq page later)%list)).
Proof.
  induction later as [|page' later IH];
    intros n page rq log df Hchain Hdata Hacc Hfuel.
  - destruct n as [|n]; [cbn in Hfuel; lia|].
    cbn [last chain_requests map fold_left next_pages].
    unfold bind at 1 2. unfold lift at 1 2. cbn [getitem].
    split; intros ->; reflexivity.
  - destruct n as [|n]; [cbn in Hfuel; lia|].
    cbn [cursor_chain] in Hchain.
    destruct Hchain as (_ & nx & Hnx & Hnn & Hchain).
    inversion Hdata as [|? ? Hd' Hdata']; subst.
    cbn [map pages_accepted] in Hacc. destruct Hacc as [Hacc1 Hacc].
    assert (Hfuel' : (length later < n)%nat) by (cbn in Hfuel; lia).
    specialize (IH n page' (next_request repr self from_date to_date nx)
                  (log ++ [rq])%list
                  (pd_concat df (page_frame source (data_of page')))
                  Hchain Hdata' Hacc Hfuel').
    assert (Hlast : last (page' :: later) page = last later page').
    { clear. revert page'. induction later as [|q l IHl]; intros page'.
      - reflexivity.
      - cbn [last] in *. destruct l; [reflexivity|]. apply IHl. }
    rewrite Hlast.
    rewrite (next_pages_step n page page' nx df _ Hnx Hnn
               (cursor_chain_head _ _ _ _ Hchain) Hd' Hacc1).
    cbn [chain_requests map fold_left]. unfold next_of. rewrite Hnx.
    rewrite <- !app_assoc in IH. cbn [app] in IH.
    rewrite <- !app_assoc. cbn [app].
    exact IH.
Qed.

(** Whatever the server does, a frame the loop returns is the frame it
    started from followed by one page per request issued. *)
Lemma next_pages_shape (n : nat) :
  forall (response : json) (df df' : DataFrame) (log log' : list request),
    next_pages server repr pandas n self source from_date to_date response df log
    = Some (Return df', log') ->
    exists (datas : list json) (new : list request),
      df' = fold_left pd_concat (map (page_frame source) datas) df
      /\ log' = (log ++ new)%list
      /\ length new = length datas.
Proof.
  induction n as [|n IH]; intros response df df' log log'.
  - discriminate.
  - rewrite next_pages_S. unfold bind at 1. unfold lift at 1.
    destruct (getitem response "next_page_url") as [nx|e0]; [|discriminate].
    destruct (is_not_None nx).
    + unfold bind at 1. rewrite request_json_inv.
      destruct (server log _) as [d|payload]; [discriminate|].
      unfold bind at 1. unfold lift at 1.
      destruct (getitem payload "data") as [data|e1]; [|discriminate].
      unfold bind at 1. unfold lift at 1.
      destruct (add_page pandas source df data) as [df1|] eqn:Ha; [|discriminate].
      apply add_page_Return in Ha. destruct Ha as [-> _].
      intros H. apply IH in H. destruct H as (datas & new & -> & -> & Hlen).
      exists (data :: datas), (mk_request "GET"
                 (format_value repr nx ++ "&from=" ++ from_date ++ "&to=" ++ to_date
                    ++ "&region&limit=100") (headers self) :: new).
      cbn [map fold_left length]. rewrite <- app_assoc. cbn [app].
      split; [reflexivity | split; [reflexivity | now rewrite Hlen]].
    + intros H. injection H as <- <-. exists [], [].
      cbn. now rewrite app_nil_r.
Qed.

Lemma get_response_returns (log log' : list request) (df : DataFrame) :
  get_response server repr pandas fuel self source from_date to_date region log
  = Some (Return df, log') ->
  fetch server repr pandas fuel self source from_date to_date region log
  = Some (Return df, log').
Proof.
  unfold get_response. destruct (negb _); [discriminate|].
  unfold bind at 1. unfold lift at 1.
  destruct (strptime from_date) as [f|]; [|discriminate].
  unfold bind at 1. unfold lift at 1.
  destruct (strptime "2022-03-22") as [o|]; [|discriminate].
  destruct (delta_days f o <? 0)%Z; [discriminate|].
  unfold bind at 1. unfold lift at 1.
  destruct (strptime to_date) as [t|]; [|discriminate].
  destruct (delta_days t f <? 0)%Z; [discriminate|].
  trivial.
Qed.

Lemma fetch_shape (log log' : list request) (df : DataFrame) :
  fetch server repr pandas fuel self source from_date to_date region log
  = Some (Return df, log') ->
  exists (first : json) (later : list json) (new : list request),
    df = fold_left pd_concat (map (page_frame source) later) (pd_DataFrame first)
    /\ log' = (log ++ new)%list
    /\ length new = S (length later).
Proof.
  unfold fetch. unfold bind at 1. unfold lift at 1.
  destruct (build_query source from_date to_date API_URL region) as [u|];
    [|discriminate].
  unfold bind at 1. rewrite request_json_inv.
  destruct (server log _) as [d|payload]; [discriminate|].
  unfold bind at 1. unfold lift at 1.
  destruct (keys_list_of payload) as [ks|]; [|discriminate].
  destruct (py_in "data" ks).
  - unfold bind at 1. unfold lift at 1.
    destruct (getitem payload "data") as [data|]; [|discriminate].
    unfold bind at 1. unfold lift at 1.
    destruct (call pandas (pd_DataFrame data)) as [df0|] eqn:Hc; [|discriminate].
    apply call_Return in Hc. destruct Hc as [-> _].
    intros H. apply next_pages_shape in H.
    destruct H as (datas & new & -> & -> & Hlen).
    exists data, datas, (mk_request "GET" u (headers self) :: new).
    rewrite <- app_assoc. cbn [app length].
    split; [reflexivity | split; [reflexivity | now rewrite Hlen]].
  - unfold lift. intros H. injection H as H <-.
    apply call_Return in H. destruct H as [-> _].
    exists payload, [], [mk_request "GET" u (headers self)].
    repeat split.
Qed.

(** C4 (as the code has it): when the first response and each one after
    it is a dict with a "data" entry, the page content is the value under
    "data"; each response but the last names a next page, and the request
    for it is a GET of that address followed by the from, to, region and
    limit parameters of the call, with the same headers.  When pandas
    carries out the calls made for these pages, and with a unit of fuel
    for each response, [get_response] ends at the last one: when its
    "next_page_url" is [None] it returns the pages concatenated in order;
    when it has no "next_page_url" entry it raises [KeyError]. *)
Theorem pagination_follows_next_page_url (log : list request) (f t : datetime)
    (u : string) (page : list (string * json))
    (later : list (list (string * json))) :
  In source ["jobs"; "product"; "company"; "survey"] ->
  strptime from_date = Return f ->
  ~ date_lt f (mk_datetime 2022 3 22) ->
  strptime to_date = Return t ->
  ~ date_lt t f ->
  build_query source from_date to_date API_URL region = Return u ->
  cursor_chain server repr self from_date to_date log
    (mk_request "GET" u (headers self)) page later ->
  Forall (fun p => dict_get p "data" <> None) (page :: later) ->
  pandas (pd_DataFrame (data_of page)) = None ->
  pages_accepted pandas source (pd_DataFrame (data_of page)) (map data_of later) ->
  (length later < fuel)%nat ->
  let requests :=
    chain_requests repr self from_date to_date
      (mk_request "GET" u (headers self)) page later in
  let frame :=
    fold_left pd_concat
      (map (fun p => if source =? "product"
                     then df_T (pd_DataFrame (data_of p))
                     else pd_DataFrame (data_of p)) later)
      (pd_DataFrame (data_of page)) in
  (dict_get (last later page) "next_page_url" = Some JNull ->
   get_response server repr pandas fuel self source from_date to_date region log
   = Some (Return frame, (log ++ requests)%list))
  /\ (dict_get (last later page) "next_page_url" = None ->
      get_response server repr pandas fuel self source from_date to_date region log
      = Some (Raise (KeyError "next_page_url"), (log ++ requests)%list)).
Proof.
  intros Hsrc Hf Hge Ht Hord Hu Hchain Hdata Hfirst Hacc Hfuel requests frame.
  rewrite (get_response_checked log f t) by assumption.
  inversion Hdata as [|? ? Hd Hdata']; subst.
  rewrite (fetch_dict_data_accepted log u page Hu
             (cursor_chain_head _ _ _ _ Hchain) Hd Hfirst).
  exact (next_pages_chain later fuel page _ log _ Hchain Hdata' Hacc Hfuel).
Qed.

(** C10: when the first response is a list, the keys are those of its
    first element.  An empty list makes [get_response] raise
    [IndexError] after that one request, before any frame is built; a
    list whose first element is a dict without a "data" entry is handed
    whole to [pd.DataFrame] as one page, and the call returns that frame
    when pandas builds it and raises what pandas raises otherwise; and
    whenever [get_response] returns a frame for a list, the list is not
    empty and the frame is that single page. *)
Theorem list_payload_keys_from_first_item (log : list request) (f t : datetime)
    (u : string) (items : list json) :
  In source ["jobs"; "product"; "company"; "survey"] ->
  strptime from_date = Return f ->
  ~ date_lt f (mk_datetime 2022 3 22) ->
  strptime to_date = Return t ->
  ~ date_lt t f ->
  build_query source from_date to_date API_URL region = Return u ->
  server log (mk_request "GET" u (headers self)) = inr (JList items) ->
  let log1 := (log ++ [mk_request "GET" u (headers self)])%list in
  (items = [] ->
   get_response server repr pandas fuel self source from_date to_date region log
   = Some (Raise IndexError, log1))
  /\ (forall (entries : list (string * json)) (rest : list json),
        items = JDict entries :: rest ->
        dict_get entries "data" = None ->
        keys_list_of (JList items) = Return (map fst entries)
        /\ (pandas (pd_DataFrame (JList items)) = None ->
            get_response server repr pandas fuel self source from_date to_date
              region log
            = Some (Return (pd_DataFrame (JList items)), log1))
        /\ (forall e : pandas_exn,
              pandas (pd_DataFrame (JList items)) = Some e ->
              get_response server repr pandas fuel self source from_date to_date
                region log
              = Some (Raise (raise_pandas e), log1)))
  /\ (forall (df : DataFrame) (log' : list request),
        get_response server repr pandas fuel self source from_date to_date region log
        = Some (Return df, log') ->
        items <> [] /\ df = pd_DataFrame (JList items) /\ log' = log1
        /\ pandas (pd_DataFrame (JList items)) = None).
Proof.
  intros Hsrc Hf Hge Ht Hord Hu Hs log1.
  rewrite (get_response_checked log f t) by assumption.
  assert (Hfetch :
    fetch server repr pandas fuel self source from_date to_date region log
    = (keys_list <- lift (keys_list_of (JList items)) ;;
       if py_in "data" keys_list then
         data <- lift (getitem (JList items) "data") ;;
         df <- lift (call pandas (pd_DataFrame data)) ;;
         next_pages server repr pandas fuel self source from_date to_date
           (JList items) df
       else lift (call pandas (pd_DataFrame (JList items))))%io log1).
  { unfold fetch. unfold bind at 1. unfold lift at 1. rewrite Hu.
    unfold bind at 1. rewrite request_json_inv, Hs. reflexivity. }
  rewrite Hfetch. clear Hfetch.
  split; [|split].
  - intros ->. reflexivity.
  - intros entries rest -> Hnone. split; [reflexivity|].
    unfold bind, lift, call. cbn [keys_list_of getitem0 obind keys].
    destruct (py_in "data" (map fst entries)) eqn:E.
    { apply py_in_keys in E. contradiction. }
    split.
    + intros ->. reflexivity.
    + intros e ->. reflexivity.
  - intros df log'. unfold bind at 1. unfold lift at 1.
    destruct items as [|x rest]; [discriminate|].
    cbn [keys_list_of getitem0 obind].
    destruct (keys x) as [ks|]; [|discriminate].
    destruct (py_in "data" ks).
    + unfold bind at 1. unfold lift at 1. cbn [getitem]. discriminate.
    + unfold lift. intros H. injection H as H <-.
      apply call_Return in H. destruct H as [-> Hp].
      split; [discriminate | split; [reflexivity | split; [reflexivity | exact Hp]]].
Qed.

End GetResponse.

(** C3 (as the code has it): for the category product, a frame that
    [get_response] returns is the first page converted as it is, without
    a transpose, followed by one transposed page for each request after
    the first. *)
Theorem product_pages_after_first_transposed
    (server : list request -> request -> string + json) (repr : json -> string)
    (pandas : DataFrame -> option pandas_exn)
    (fuel : nat) (self : VeluxClub.instance) (from_date to_date region : string)
    (log log' : list request) (df : DataFrame) :
  VeluxClub.get_response server repr pandas fuel self "product" from_date to_date region log
  = Some (Return df, log') ->
  exists (first : json) (later : list json) (new : list request),
    df = fold_left pd_concat (map (fun d => df_T (pd_DataFrame d)) later)
           (pd_DataFrame first)
    /\ log' = (log ++ new)%list
    /\ length new = S (length later).
Proof.
  intros H. apply get_response_returns in H. apply fetch_shape in H.
  exact H.
Qed.

(** ** The model at concrete inputs *)

Section Runs.

Import VeluxClub.

Lemma get_response_unknown_source_witness :
  get_response offline no_repr pandas_on_examples 0 demo "orders" "yesterday" "" "null" []
  = Some (Raise (Source_NOK "The source has to be: jobs, product, company or survey"),
          []).
Proof.
  apply get_response_unknown_source.
  simpl. intros [H|[H|[H|[H|[]]]]]; discriminate.
Defined.

Lemma get_response_historical_floor_witness :
  get_response offline no_repr pandas_on_examples 0 demo "jobs" "2020-01-01" "2022-04-01" "null" []
  = Some (Raise (Historical_Too_Old "from_date cannot be earlier than 2023-03-22!!"),
          [])
  /\ (forall (message : string) (log' : list request),
        get_response offline no_repr pandas_on_examples 0 demo "jobs" "2022-03-22" "2022-04-01" "null" []
        <> Some (Raise (Historical_Too_Old message), log')).
Proof.
  split.
  - apply (get_response_historical_floor offline no_repr pandas_on_examples 0 demo "jobs"
             "2020-01-01" "2022-04-01" "null" [] (mk_datetime 2020 1 1)).
    + simpl. auto.
    + reflexivity.
    + unfold date_lt. simpl. lia.
  - apply (get_response_historical_floor offline no_repr pandas_on_examples 0 demo "jobs"
             "2022-03-22" "2022-04-01" "null" [] (mk_datetime 2022 3 22)).
    + simpl. auto.
    + reflexivity.
    + unfold date_lt. simpl. lia.
Defined.

Lemma get_response_to_date_check_witness :
  get_response offline no_repr pandas_on_examples 0 demo "jobs" "2022-04-01" "2022-03-01" "null" []
  = Some (Raise (Dates_NOK "to_date cannot be earlier than from_date!"), [])
  /\ get_response offline no_repr pandas_on_examples 0 demo "jobs" "2022-04-01" "tomorrow" "null" []
     = Some (Raise ValueError, []).
Proof.
  split.
  - apply (proj1 (get_response_to_date_check offline no_repr pandas_on_examples 0 demo "jobs"
                    "2022-04-01" "2022-03-01" "null" [] (mk_datetime 2022 4 1)
                    ltac:(simpl; auto) eq_refl
                    ltac:(unfold date_lt; simpl; lia))
             (mk_datetime 2022 3 1)).
    + reflexivity.
    + unfold date_lt. simpl. lia.
  - apply (proj2 (get_response_to_date_check offline no_repr pandas_on_examples 0 demo "jobs"
                    "2022-04-01" "tomorrow" "null" [] (mk_datetime 2022 4 1)
                    ltac:(simpl; auto) eq_refl
                    ltac:(unfold date_lt; simpl; lia))).
    intros t. vm_compute. discriminate.
Defined.

(** C6, the claim as worded fails: a [to_date] that is not a date ends
    the call with the [ValueError] of the parsing, not with [Dates_NOK]. *)
Lemma get_response_unparsable_to_date_is_ValueError :
  get_response offline no_repr pandas_on_examples 0 demo "jobs" "2022-03-22" "tomorrow" "null" []
  = Some (Raise ValueError, []).
Proof. vm_compute. reflexivity. Qed.

Lemma product_pages_after_first_transposed_witness :
  get_response two_pages no_repr pandas_on_examples 5 demo "product" "2022-03-22" "2022-04-21" "null" []
  = Some (Return (pd_concat (pd_DataFrame (data_of page1))
                            (df_T (pd_DataFrame (data_of page2)))),
          [first_request; second_request])
  /\ exists (first : json) (later : list json) (new : list request),
       pd_concat (pd_DataFrame (data_of page1)) (df_T (pd_DataFrame (data_of page2)))
       = fold_left pd_concat (map (fun d => df_T (pd_DataFrame d)) later)
           (pd_DataFrame first)
       /\ [first_request; second_request] = ([] ++ new)%list
       /\ length new = S (length later).
Proof.
  split.
  - vm_compute. reflexivity.
  - apply (product_pages_after_first_transposed two_pages no_repr pandas_on_examples 5 demo
             "2022-03-22" "2022-04-21" "null").
    vm_compute. reflexivity.
Defined.

(** C3, the claim as worded fails: of the two product pages only the
    second is transposed. *)
Lemma product_first_page_not_transposed :
  get_response two_pages no_repr pandas_on_examples 5 demo "product" "2022-03-22" "2022-04-21" "null" []
  = Some (Return (pd_concat (pd_DataFrame (data_of page1))
                            (df_T (pd_DataFrame (data_of page2)))),
          [first_request; second_request])
  /\ every_page_transposed
       (pd_concat (pd_DataFrame (data_of page1))
                  (df_T (pd_DataFrame (data_of page2)))) = false.
Proof. split; vm_compute; reflexivity. Qed.

Lemma pagination_follows_next_page_url_witness :
  get_response two_pages no_repr pandas_on_examples 5 demo
    "product" "2022-03-22" "2022-04-21" "null" []
  = Some (Return (pd_concat (pd_DataFrame (data_of page1))
                            (df_T (pd_DataFrame (data_of page2)))),
          [first_request; second_request])
  /\ get_response no_cursor no_repr pandas_on_examples 5 demo
       "jobs" "2022-03-22" "2022-04-21" "null" []
     = Some (Raise (KeyError "next_page_url"), [jobs_request]).
Proof.
  split.
  - apply (proj1 (pagination_follows_next_page_url two_pages no_repr
                    pandas_on_examples 5 demo
                    "product" "2022-03-22" "2022-04-21" "null" []
                    (mk_datetime 2022 3 22) (mk_datetime 2022 4 21)
                    (url first_request) page1 [page2]
                    ltac:(simpl; auto) eq_refl
                    ltac:(unfold date_lt; simpl; lia) eq_refl
                    ltac:(unfold date_lt; simpl; lia) eq_refl
                    ltac:(simpl; repeat split;
                          exists (JStr "https://api.club.velux.com/api/v1/datalake/product?page=2");
                          repeat split; discriminate)
                    ltac:(repeat constructor; discriminate)
                    eq_refl
                    ltac:(simpl; repeat split)
                    ltac:(simpl; lia))).
    reflexivity.
  - apply (proj2 (pagination_follows_next_page_url no_cursor no_repr
                    pandas_on_examples 5 demo
                    "jobs" "2022-03-22" "2022-04-21" "null" []
                    (mk_datetime 2022 3 22) (mk_datetime 2022 4 21)
                    (url jobs_request)
                    [("data", JList [JDict [("id", JInt 1)]])] []
                    ltac:(simpl; auto) eq_refl
                    ltac:(unfold date_lt; simpl; lia) eq_refl
                    ltac:(unfold date_lt; simpl; lia) eq_refl
                    ltac:(simpl; repeat split)
                    ltac:(repeat constructor; discriminate)
                    eq_refl
                    ltac:(simpl; exact I)
                    ltac:(simpl; lia))).
    reflexivity.
Defined.

(** C4, the claim as worded fails: a response with "data" and without
    "next_page_url" ends the call with a [KeyError]. *)
Lemma absent_next_page_url_is_KeyError :
  get_response no_cursor no_repr pandas_on_examples 5 demo "jobs" "2022-03-22" "2022-04-21" "null" []
  = Some (Raise (KeyError "next_page_url"), [jobs_request]).
Proof. vm_compute. reflexivity. Qed.

Lemma list_payload_keys_from_first_item_witness :
  get_response (answers_list []) no_repr pandas_on_examples 5 demo
    "jobs" "2022-03-22" "2022-04-21" "null" []
  = Some (Raise IndexError, [jobs_request])
  /\ get_response (answers_list [JDict [("id", JInt 1)]]) no_repr
       pandas_on_examples 5 demo "jobs" "2022-03-22" "2022-04-21" "null" []
     = Some (Return (pd_DataFrame (JList [JDict [("id", JInt 1)]])), [jobs_request]).
Proof.
  split.
  - apply (proj1 (list_payload_keys_from_first_item (answers_list []) no_repr
                    pandas_on_examples 5 demo
                    "jobs" "2022-03-22" "2022-04-21" "null" []
                    (mk_datetime 2022 3 22) (mk_datetime 2022 4 21)
                    (url jobs_request) []
                    ltac:(simpl; auto) eq_refl
                    ltac:(unfold date_lt; simpl; lia) eq_refl
                    ltac:(unfold date_lt; simpl; lia) eq_refl eq_refl)).
    reflexivity.
  - apply (proj1 (proj2 (proj1 (proj2 (list_payload_keys_from_first_item
                    (answers_list [JDict [("id", JInt 1)]]) no_repr
                    pandas_on_examples 5 demo
                    "jobs" "2022-03-22" "2022-04-21" "null" []
                    (mk_datetime 2022 3 22) (mk_datetime 2022 4 21)
                    (url jobs_request) [JDict [("id", JInt 1)]]
                    ltac:(simpl; auto) eq_refl
                    ltac:(unfold date_lt; simpl; lia) eq_refl
                    ltac:(unfold date_lt; simpl; lia) eq_refl eq_refl))
                    [("id", JInt 1)] [] eq_refl eq_refl))).
    reflexivity.
Defined.

End Runs.

(** ** More about get_response *)

Section Requests.

Import VeluxClub.

Variable server : list request -> request -> string + json.
Variable repr : json -> string.
Variable pandas : DataFrame -> option pandas_exn.
Variable self : instance.
Variables (source from_date to_date region : string).

Lemma next_pages_requests (n : nat) :
  forall (response : json) (df : DataFrame) (log log' : list request)
         (o : outcome DataFrame),
    next_pages server repr pandas n self source from_date to_date response df log
    = Some (o, log') ->
    exists new : list request,
      log' = (log ++ new)%list /\ Forall (follow_up self from_date to_date) new.
Proof.
  induction n as [|n IH]; intros response df log log' o.
  - discriminate.
  - rewrite next_pages_S. unfold bind at 1. unfold lift at 1.
    destruct (getitem response "next_page_url") as [nx|e0].
    + destruct (is_not_None nx).
      * unfold bind at 1. rewrite request_json_inv.
        set (rq := mk_request "GET" _ (headers self)).
        assert (Hrq : follow_up self from_date to_date rq).
        { repeat split. now exists (format_value repr nx). }
        destruct (server log rq) as [d|payload].
        -- intros H. injection H as <- <-. exists [rq]. split; [reflexivity|].
           now constructor.
        -- unfold bind at 1. unfold lift at 1.
           destruct (getitem payload "data") as [data|e1].
           ++ unfold bind at 1. unfold lift at 1.
              destruct (add_page pandas source df data) as [df1|e2].
              ** intros H. apply IH in H. destruct H as (new & -> & Hnew).
                 exists (rq :: new). rewrite <- app_assoc. split; [reflexivity|].
                 now constructor.
              ** intros H. injection H as <- <-. exists [rq].
                 split; [reflexivity | now constructor].
           ++ intros H. injection H as <- <-. exists [rq].
              split; [reflexivity | now constructor].
      * intros H. injection H as <- <-. exists []. now rewrite app_nil_r.
    + intros H. injection H as <- <-. exists []. now rewrite app_nil_r.
Qed.

Lemma fetch_requests (fuel : nat) (log log' : list request) (o : outcome DataFrame) :
  fetch server repr pandas fuel self source from_date to_date region log
  = Some (o, log') ->
  exists (u : string) (rest : list request),
    build_query source from_date to_date API_URL region = Return u
    /\ log' = (log ++ mk_request "GET" u (headers self) :: rest)%list
    /\ Forall (follow_up self from_date to_date) rest.
Proof.
  unfold fetch.
  destruct (build_query_returns source from_date to_date API_URL region) as [u Hu].
  unfold bind at 1. unfold lift at 1. rewrite Hu.
  unfold bind at 1. rewrite request_json_inv.
  set (rq := mk_request "GET" u (headers self)).
  destruct (server log rq) as [d|payload].
  - intros H. injection H as <- <-. exists u, []. repeat split. constructor.
  - unfold bind at 1. unfold lift at 1.
    destruct (keys_list_of payload) as [ks|e0].
    + destruct (py_in "data" ks).
      * unfold bind at 1. unfold lift at 1.
        destruct (getitem payload "data") as [data|e1].
        -- unfold bind at 1. unfold lift at 1.
           destruct (call pandas (pd_DataFrame data)) as [df0|e2].
           ++ intros H. apply next_pages_requests in H.
              destruct H as (new & -> & Hnew).
              exists u, new. rewrite <- app_assoc. repeat split. exact Hnew.
           ++ intros H. injection H as <- <-. exists u, []. repeat split.
              constructor.
        -- intros H. injection H as <- <-. exists u, []. repeat split. constructor.
      * unfold lift. intros H. injection H as _ <-. exists u, []. repeat split.
        constructor.
    + intros H. injection H as <- <-. exists u, []. repeat split. constructor.
Qed.

Lemma get_response_log (fuel : nat) (log log' : list request) (o : outcome DataFrame) :
  get_response server repr pandas fuel self source from_date to_date region log
  = Some (o, log') ->
  log' = log
  \/ ((In source ["jobs"; "product"; "company"; "survey"]
       /\ exists f t : datetime,
           strptime from_date = Return f /\ ~ date_lt f (mk_datetime 2022 3 22)
           /\ strptime to_date = Return t /\ ~ date_lt t f)
      /\ fetch server repr pandas fuel self source from_date to_date region log
         = Some (o, log')).
Proof.
  destruct (py_in source ["jobs"; "product"; "company"; "survey"]) eqn:Hsrc.
  2:{ unfold get_response. rewrite Hsrc. cbn [negb]. unfold throw.
      intros H. injection H as _ <-. now left. }
  apply py_in_In in Hsrc. rewrite get_response_known by assumption.
  unfold bind at 1. unfold lift at 1.
  destruct (strptime from_date) as [f|e] eqn:Hf.
  2:{ intros H. injection H as _ <-. now left. }
  destruct (delta_days f oldest_date <? 0)%Z eqn:Hd1.
  { unfold throw. intros H. injection H as _ <-. now left. }
  unfold bind at 1. unfold lift at 1.
  destruct (strptime to_date) as [t|e] eqn:Ht.
  2:{ intros H. injection H as _ <-. now left. }
  destruct (delta_days t f <? 0)%Z eqn:Hd2.
  { unfold throw. intros H. injection H as _ <-. now left. }
  intros H. right. split; [|exact H]. split; [exact Hsrc|].
  unfold oldest_date in Hd1.
  exists f, t. repeat split; try reflexivity.
  - intros Hlt. apply delta_days_neg in Hlt;
      [congruence | now apply strptime_valid with from_date | exact valid_oldest].
  - intros Hlt. apply delta_days_neg in Hlt;
      [congruence | now apply strptime_valid with to_date
       | now apply strptime_valid with from_date].
Qed.

(** X1: whatever the server answers and however the call ends, every
    request [get_response] issues is a GET with the instance's headers;
    the first goes to the URL [build_query] returned, and every later one
    to an address followed by the from, to, region and limit parameters of
    the call, for the category survey as well. *)
Theorem get_response_requests_shape (fuel : nat) (log log' : list request)
    (o : outcome DataFrame) :
  get_response server repr pandas fuel self source from_date to_date region log
  = Some (o, log') ->
  exists new : list request,
    log' = (log ++ new)%list
    /\ Forall (fun rq => method rq = "GET" /\ req_headers rq = headers self) new
    /\ match new with
       | [] => True
       | first :: rest =>
           build_query source from_date to_date API_URL region = Return (url first)
           /\ Forall (fun rq => exists address : string,
                          url rq = address ++ "&from=" ++ from_date ++ "&to="
                                     ++ to_date ++ "&region&limit=100") rest
       end.
Proof.
  intros H. apply get_response_log in H. destruct H as [-> | [_ H]].
  - exists []. rewrite app_nil_r. repeat split. constructor.
  - apply fetch_requests in H. destruct H as (u & rest & Hu & -> & Hrest).
    exists (mk_request "GET" u (headers self) :: rest). split; [reflexivity|].
    split.
    + constructor; [now split|].
      eapply Forall_impl; [|exact Hrest]. intros rq (Hm & Hh & _). now split.
    + split; [exact Hu|].
      eapply Forall_impl; [|exact Hrest]. intros rq (_ & _ & Ha). exact Ha.
Qed.

Lemma get_response_fetch (fuel : nat) (log : list request) :
  checked source from_date to_date ->
  get_response server repr pandas fuel self source from_date to_date region log
  = fetch server repr pandas fuel self source from_date to_date region log.
Proof.
  intros (Hsrc & f & t & Hf & Hge & Ht & Hord).
  now apply (get_response_checked server repr pandas fuel self source from_date to_date
               region log f t).
Qed.

Lemma app_cons_neq (A : Type) (l rest : list A) (x : A) :
  (l ++ x :: rest)%list <> l.
Proof.
  intros H. apply (f_equal (@length A)) in H.
  rewrite length_app in H. cbn in H. lia.
Qed.

Lemma strptime_nonempty (s : string) (d : datetime) :
  strptime s = Return d -> s <> "".
Proof. intros H ->. discriminate. Qed.

Lemma build_query_checked :
  checked source from_date to_date ->
  build_query source from_date to_date API_URL region
  = Return (first_url source from_date to_date).
Proof.
  intros (Hsrc & f & t & Hf & _ & Ht & _).
  apply strptime_nonempty in Hf, Ht.
  apply String.eqb_neq in Hf, Ht.
  unfold build_query, first_url.
  destruct Hsrc as [<-|[<-|[<-|[<-|[]]]]]; cbn [py_in existsb String.eqb Ascii.eqb Bool.eqb orb];
    try (rewrite Hf, Ht; reflexivity); reflexivity.
Qed.

(** X2: a call of [get_response] that ends has issued a request exactly
    when its arguments passed the three checks: a category of the known
    set, a [from_date] that parses to 2022-03-22 or later, and a
    [to_date] that parses to [from_date] or later. *)
Theorem get_response_requests_iff_checked (fuel : nat) (log log' : list request)
    (o : outcome DataFrame) :
  get_response server repr pandas fuel self source from_date to_date region log
  = Some (o, log') ->
  (log' <> log <->
   (In source ["jobs"; "product"; "company"; "survey"]
    /\ exists f t : datetime,
         strptime from_date = Return f /\ ~ date_lt f (mk_datetime 2022 3 22)
         /\ strptime to_date = Return t /\ ~ date_lt t f)).
Proof.
  intros H. split.
  - intros Hne. apply get_response_log in H. destruct H as [-> | [Hc _]].
    + contradiction.
    + exact Hc.
  - intros Hc Heq. rewrite (get_response_fetch fuel log Hc) in H.
    apply fetch_requests in H. destruct H as (u & rest & _ & Hlog & _).
    rewrite Heq in Hlog. symmetry in Hlog. now apply app_cons_neq in Hlog.
Qed.

(** X3: for arguments that pass the checks, the first request is a GET of
    the category's endpoint: for survey the address with the two fixed
    filters, for the other three the address with the two date strings
    exactly as they were passed; it is never one of the two message texts
    of [build_query], and the region value is not part of it. *)
Theorem get_response_first_request (fuel : nat) (log log' : list request)
    (o : outcome DataFrame) :
  checked source from_date to_date ->
  get_response server repr pandas fuel self source from_date to_date region log
  = Some (o, log') ->
  exists rest : list request,
    log' = (log ++ mk_request "GET"
                     (if source =? "survey"
                      then API_URL ++ "survey?language=en&type=question"
                      else API_URL ++ source ++ "?from=" ++ from_date
                             ++ "&to=" ++ to_date ++ "&region&limit=100")
                     (headers self) :: rest)%list.
Proof.
  intros Hc H. rewrite (get_response_fetch fuel log Hc) in H.
  apply fetch_requests in H. destruct H as (u & rest & Hu & -> & _).
  rewrite (build_query_checked Hc) in Hu. injection Hu as <-.
  now exists rest.
Qed.

Lemma fetch_first_payload (fuel : nat) (log : list request) (payload : json) :
  checked source from_date to_date ->
  server log (mk_request "GET" (first_url source from_date to_date) (headers self))
  = inr payload ->
  fetch server repr pandas fuel self source from_date to_date region log
  = (keys_list <- lift (keys_list_of payload) ;;
     if py_in "data" keys_list then
       data <- lift (getitem payload "data") ;;
       df <- lift (call pandas (pd_DataFrame data)) ;;
       next_pages server repr pandas fuel self source from_date to_date payload df
     else lift (call pandas (pd_DataFrame payload)))%io
      (log ++ [mk_request "GET" (first_url source from_date to_date) (headers self)])%list.
Proof.
  intros Hc Hs. unfold fetch. unfold bind at 1. unfold lift at 1.
  rewrite (build_query_checked Hc).
  unfold bind at 1. rewrite request_json_inv, Hs. reflexivity.
Qed.

(** X4: for arguments that pass the checks, a first response without a
    "data" key (a dict lacking that entry, or a string, number, boolean
    or null) is handed whole to [pd.DataFrame] after that single
    request, without any test of "next_page_url" and whatever fuel is
    given: the call returns the frame when pandas builds it, and raises
    what pandas raises when it does not. *)
Theorem get_response_without_data_single_page (fuel : nat) (log : list request)
    (payload : json) :
  checked source from_date to_date ->
  server log (mk_request "GET" (first_url source from_date to_date) (headers self))
  = inr payload ->
  without_data payload ->
  let log1 := (log ++ [mk_request "GET" (first_url source from_date to_date)
                         (headers self)])%list in
  (pandas (pd_DataFrame payload) = None ->
   get_response server repr pandas fuel self source from_date to_date region log
   = Some (Return (pd_DataFrame payload), log1))
  /\ (forall e : pandas_exn,
        pandas (pd_DataFrame payload) = Some e ->
        get_response server repr pandas fuel self source from_date to_date region log
        = Some (Raise (raise_pandas e), log1)).
Proof.
  intros Hc Hs Hw log1. rewrite (get_response_fetch fuel log Hc).
  rewrite (fetch_first_payload fuel log payload Hc Hs).
  assert (Hk : exists ks, keys_list_of payload = Return ks
                          /\ py_in "data" ks = false).
  { destruct payload; cbn in Hw; try contradiction;
      try (exists []; split; reflexivity).
    exists (map fst entries). split; [reflexivity|].
    destruct (py_in "data" (map fst entries)) eqn:E; [|reflexivity].
    apply py_in_keys in E. contradiction. }
  destruct Hk as (ks & Hk & Hin).
  unfold bind, lift, call. rewrite Hk, Hin.
  split.
  - intros ->. reflexivity.
  - intros e ->. reflexivity.
Qed.

(** X5: for arguments that pass the checks, a first response that is a
    list makes [get_response] raise [TypeError] when its first element is
    a dict with a "data" entry (the list itself is then subscripted with
    "data"), and [AttributeError] when its first element is not a dict;
    either way after that single request. *)
Theorem get_response_list_payload_errors (fuel : nat) (log : list request)
    (x : json) (rest : list json) :
  checked source from_date to_date ->
  server log (mk_request "GET" (first_url source from_date to_date) (headers self))
  = inr (JList (x :: rest)) ->
  let log1 := (log ++ [mk_request "GET" (first_url source from_date to_date)
                         (headers self)])%list in
  ((exists entries, x = JDict entries /\ dict_get entries "data" <> None) ->
   get_response server repr pandas fuel self source from_date to_date region log
   = Some (Raise TypeError, log1))
  /\ ((forall entries, x <> JDict entries) ->
      get_response server repr pandas fuel self source from_date to_date region log
      = Some (Raise AttributeError, log1)).
Proof.
  intros Hc Hs log1. rewrite (get_response_fetch fuel log Hc).
  rewrite (fetch_first_payload fuel log _ Hc Hs).
  unfold bind, lift. cbn [keys_list_of getitem0 obind]. split.
  - intros (entries & -> & Hd). cbn [keys].
    apply py_in_keys in Hd. rewrite Hd. reflexivity.
  - intros Hx. destruct x; try reflexivity. now destruct (Hx entries).
Qed.

(** *** Runs along a cursor chain *)

Lemma last_cons (A : Type) (x y : A) (l : list A) :
  last (x :: l) y = last l x.
Proof.
  revert x. induction l as [|z l IH]; intros x.
  - reflexivity.
  - cbn [last] in *. destruct l; [reflexivity|]. apply IH.
Qed.

Lemma next_pages_along (later : list (list (string * json))) :
  forall (n : nat) (page : list (string * json)) (rq : request)
         (log : list request) (df : DataFrame),
    cursor_chain server repr self from_date to_date log rq page later ->
    Forall (fun p => dict_get p "data" <> None) later ->
    pages_accepted pandas source df (map data_of later) ->
    next_pages server repr pandas (length later + n) self source from_date to_date
      (JDict page) df (log ++ [rq])%list
    = next_pages server repr pandas n self source from_date to_date
        (JDict (last later page))
        (fold_left pd_concat
           (map (fun p => page_frame source (data_of p)) later) df)
        (log ++ chain_requests repr self from_date to_date rq page later)%list.
Proof.
  induction later as [|page' later IH]; intros n page rq log df Hchain Hdata Hacc.
  - reflexivity.
  - cbn [cursor_chain] in Hchain.
    destruct Hchain as (_ & nx & Hnx & Hnn & Hchain).
    inversion Hdata as [|? ? Hd' Hdata']; subst.
    cbn [map pages_accepted] in Hacc. destruct Hacc as [Hacc1 Hacc].
    cbn [length Nat.add].
    rewrite (next_pages_step server repr pandas self source from_date to_date
               _ page page' nx df _ Hnx Hnn
               (cursor_chain_head _ _ _ _ _ _ _ _ _ Hchain) Hd' Hacc1).
    rewrite (IH n page' _ _ _ Hchain Hdata' Hacc).
    rewrite last_cons. cbn [chain_requests map fold_left].
    unfold next_of. rewrite Hnx. rewrite <- !app_assoc. reflexivity.
Qed.

(** X6: after a chain of pages that pandas accepted and whose last names
    a further page, what comes back for that page decides the call: a
    transport or decoding failure is raised as it is, a dict without
    "data" gives [KeyError "data"], a payload that is not a dict gives
    [TypeError], and a dict whose data pandas refuses gives what pandas
    raises; in each case the pages gathered so far are given up. *)
Theorem get_response_later_page_failure (fuel : nat) (log : list request)
    (page : list (string * json)) (later : list (list (string * json)))
    (nx : json) :
  checked source from_date to_date ->
  cursor_chain server repr self from_date to_date log
    (mk_request "GET" (first_url source from_date to_date) (headers self))
    page later ->
  Forall (fun p => dict_get p "data" <> None) (page :: later) ->
  pandas (pd_DataFrame (data_of page)) = None ->
  pages_accepted pandas source (pd_DataFrame (data_of page)) (map data_of later) ->
  dict_get (last later page) "next_page_url" = Some nx ->
  nx <> JNull ->
  (length later < fuel)%nat ->
  let issued :=
    (log ++ chain_requests repr self from_date to_date
              (mk_request "GET" (first_url source from_date to_date) (headers self))
              page later)%list in
  let rq := next_request repr self from_date to_date nx in
  (forall description : string,
      server issued rq = inl description ->
      get_response server repr pandas fuel self source from_date to_date region log
      = Some (Raise (LibraryError description), (issued ++ [rq])%list))
  /\ (forall entries : list (string * json),
        server issued rq = inr (JDict entries) ->
        dict_get entries "data" = None ->
        get_response server repr pandas fuel self source from_date to_date region log
        = Some (Raise (KeyError "data"), (issued ++ [rq])%list))
  /\ (forall payload : json,
        server issued rq = inr payload ->
        (forall entries, payload <> JDict entries) ->
        get_response server repr pandas fuel self source from_date to_date region log
        = Some (Raise TypeError, (issued ++ [rq])%list))
  /\ (forall (entries : list (string * json)) (data : json) (e : pandas_exn),
        server issued rq = inr (JDict entries) ->
        dict_get entries "data" = Some data ->
        pandas (pd_DataFrame data) = Some e ->
        get_response server repr pandas fuel self source from_date to_date region log
        = Some (Raise (raise_pandas e), (issued ++ [rq])%list)).
Proof.
  intros Hc Hchain Hdata Hfirst Hacc Hnx Hnn Hfuel. cbv zeta. unfold next_request.
  set (issued := (log ++ chain_requests _ _ _ _ _ _ _)%list).
  inversion Hdata as [|? ? Hd Hdata']; subst.
  assert (Hrun :
    get_response server repr pandas fuel self source from_date to_date region log
    = (response' <- request_json server
                      (format_value repr nx ++ "&from=" ++ from_date ++ "&to="
                         ++ to_date ++ "&region&limit=100") (headers self) ;;
       data <- lift (getitem response' "data") ;;
       df' <- lift (add_page pandas source
                      (fold_left pd_concat
                         (map (fun p => page_frame source (data_of p)) later)
                         (pd_DataFrame (data_of page))) data) ;;
       next_pages server repr pandas (fuel - length later - 1) self source from_date
         to_date response' df')%io issued).
  { rewrite (get_response_fetch fuel log Hc).
    rewrite (fetch_dict_data_accepted server repr pandas fuel self source from_date
               to_date region log _ page (build_query_checked Hc)
               (cursor_chain_head _ _ _ _ _ _ _ _ _ Hchain) Hd Hfirst).
    replace fuel with (length later + S (fuel - length later - 1))%nat at 1 by lia.
    rewrite (next_pages_along later _ page _ log _ Hchain Hdata' Hacc).
    rewrite next_pages_S. unfold bind at 1. unfold lift at 1. cbn [getitem].
    rewrite Hnx.
    assert (Hnone : is_not_None nx = true)
      by (destruct nx; try reflexivity; congruence).
    rewrite Hnone. reflexivity. }
  rewrite Hrun. unfold bind at 1 4 7 10. rewrite !request_json_inv.
  split; [|split; [|split]].
  - intros d Hs. rewrite Hs. reflexivity.
  - intros entries Hs Hno.
    rewrite Hs. unfold bind, lift. cbn [getitem]. rewrite Hno. reflexivity.
  - intros payload Hs Hnd.
    rewrite Hs. unfold bind, lift.
    destruct payload; try reflexivity. now destruct (Hnd entries).
  - intros entries data e Hs Hd' He.
    rewrite Hs. unfold bind, lift, add_page, call. cbn [getitem].
    rewrite Hd', He. reflexivity.
Qed.

(** *** A returned frame comes from a cursor chain *)

Lemma getitem_Return_dict (v x : json) (key : string) :
  getitem v key = Return x ->
  exists entries, v = JDict entries /\ dict_get entries key = Some x.
Proof.
  destruct v; try discriminate. cbn.
  destruct (dict_get entries key) eqn:E; [|discriminate].
  intros H. injection H as <-. now exists entries.
Qed.

Lemma next_pages_returns_chain (n : nat) :
  forall (page : list (string * json)) (rq : request) (log log' : list request)
         (df df' : DataFrame),
    server log rq = inr (JDict page) ->
    next_pages server repr pandas n self source from_date to_date (JDict page) df
      (log ++ [rq])%list
    = Some (Return df', log') ->
    exists later : list (list (string * json)),
      cursor_chain server repr self from_date to_date log rq page later
      /\ Forall (fun p => dict_get p "data" <> None) later
      /\ dict_get (last later page) "next_page_url" = Some JNull
      /\ df' = fold_left pd_concat
                 (map (fun p => page_frame source (data_of p)) later) df
      /\ log' = (log ++ chain_requests repr self from_date to_date rq page later)%list
      /\ (length later < n)%nat.
Proof.
  induction n as [|n IH]; intros page rq log log' df df' Hs.
  - discriminate.
  - rewrite next_pages_S. unfold bind at 1. unfold lift at 1. cbn [getitem].
    destruct (dict_get page "next_page_url") as [nx|] eqn:Hnx; [|discriminate].
    destruct (is_not_None nx) eqn:Hnone.
    + unfold bind at 1. rewrite request_json_inv.
      fold (next_request repr self from_date to_date nx).
      destruct (server (log ++ [rq])%list _) as [d|payload] eqn:Hs';
        [discriminate|].
      unfold bind at 1. unfold lift at 1.
      destruct (getitem payload "data") as [data|] eqn:Hd; [|discriminate].
      apply getitem_Return_dict in Hd. destruct Hd as (page' & -> & Hd).
      unfold bind at 1. unfold lift at 1.
      destruct (add_page pandas source df data) as [df1|] eqn:Ha; [|discriminate].
      apply add_page_Return in Ha. destruct Ha as [-> _].
      intros H. apply (IH page' _ _ _ _ _ Hs') in H.
      destruct H as (later & Hchain & Hdata & Hlast & -> & -> & Hlen).
      exists (page' :: later). rewrite last_cons.
      cbn [cursor_chain map fold_left chain_requests length].
      unfold next_of. rewrite Hnx.
      assert (Hdo : data_of page' = data) by (unfold data_of; now rewrite Hd).
      rewrite Hdo.
      split; [|split; [|split; [|split; [|split]]]].
      * split; [exact Hs|]. exists nx. split; [reflexivity|].
        split; [intros ->; discriminate | exact Hchain].
      * constructor; [congruence | exact Hdata].
      * exact Hlast.
      * reflexivity.
      * now rewrite <- app_assoc.
      * lia.
    + destruct nx; try discriminate.
      intros H. injection H as <- <-. exists [].
      cbn [cursor_chain last map fold_left chain_requests length].
      split; [now split|]. split; [constructor|]. split; [exact Hnx|].
      split; [reflexivity|]. split; [reflexivity | lia].
Qed.

(** X7: [get_response] returns a frame only in two ways.  Either the
    first response has no "data" key and is returned whole as one page
    after one request; or the first response and every one after it is a
    dict with "data", each but the last names a next page that was asked
    for in turn, the last has "next_page_url" [None], and the frame is
    the pages in that order. *)
Theorem get_response_returns_characterised (fuel : nat) (log log' : list request)
    (df : DataFrame) :
  get_response server repr pandas fuel self source from_date to_date region log
  = Some (Return df, log') ->
  let rq := mk_request "GET" (first_url source from_date to_date) (headers self) in
  checked source from_date to_date
  /\ exists payload : json,
       server log rq = inr payload
       /\ ((exists ks, keys_list_of payload = Return ks /\ py_in "data" ks = false
                       /\ df = pd_DataFrame payload /\ log' = (log ++ [rq])%list)
           \/ (exists (page : list (string * json))
                      (later : list (list (string * json))),
                  payload = JDict page
                  /\ cursor_chain server repr self from_date to_date log rq page later
                  /\ Forall (fun p => dict_get p "data" <> None) (page :: later)
                  /\ dict_get (last later page) "next_page_url" = Some JNull
                  /\ df = fold_left pd_concat
                            (map (fun p => page_frame source (data_of p)) later)
                            (pd_DataFrame (data_of page))
                  /\ log' = (log ++ chain_requests repr self from_date to_date
                                      rq page later)%list
                  /\ (length later < fuel)%nat)).
Proof.
  intros H rq.
  assert (Hc : checked source from_date to_date).
  { pose proof H as Hf. apply get_response_returns in Hf.
    apply get_response_log in H. destruct H as [-> | [Hc _]]; [|exact Hc].
    apply fetch_requests in Hf. destruct Hf as (u & rest & _ & Hlog & _).
    symmetry in Hlog. now apply app_cons_neq in Hlog. }
  split; [exact Hc|].
  apply get_response_returns in H. revert H.
  unfold fetch. unfold bind at 1. unfold lift at 1.
  rewrite (build_query_checked Hc).
  unfold bind at 1. rewrite request_json_inv. fold rq.
  destruct (server log rq) as [d|payload] eqn:Hs; [discriminate|].
  unfold bind at 1. unfold lift at 1.
  destruct (keys_list_of payload) as [ks|] eqn:Hk; [|discriminate].
  destruct (py_in "data" ks) eqn:Hin.
  - unfold bind at 1. unfold lift at 1.
    destruct (getitem payload "data") as [data|] eqn:Hd; [|discriminate].
    apply getitem_Return_dict in Hd. destruct Hd as (page & -> & Hd).
    unfold bind at 1. unfold lift at 1.
    destruct (call pandas (pd_DataFrame data)) as [df0|] eqn:Hcall;
      [|discriminate].
    apply call_Return in Hcall. destruct Hcall as [-> _].
    intros H. apply (next_pages_returns_chain _ page rq log _ _ _ Hs) in H.
    destruct H as (later & Hchain & Hdata & Hlast & -> & -> & Hlen).
    exists (JDict page). split; [reflexivity|]. right.
    exists page, later.
    assert (Hdo : data_of page = data) by (unfold data_of; now rewrite Hd).
    rewrite Hdo.
    repeat split; try assumption.
    constructor; [congruence | exact Hdata].
  - unfold lift. intros H. injection H as H <-.
    apply call_Return in H. destruct H as [-> _].
    exists payload. split; [reflexivity|]. left. now exists ks.
Qed.

(** *** A server that never ends the chain *)

Lemma next_pages_never_ends (P : json -> Prop) :
  (forall (log : list request) (rq : request),
      exists (page : list (string * json)) (d nx : json),
        server log rq = inr (JDict page)
        /\ dict_get page "data" = Some d /\ P d
        /\ dict_get page "next_page_url" = Some nx /\ nx <> JNull) ->
  (forall (acc : DataFrame) (d : json),
      accumulated source P acc -> P d -> page_accepted pandas source acc d) ->
  forall (n : nat) (page : list (string * json)) (nx : json) (df : DataFrame)
         (log : list request),
    accumulated source P df ->
    dict_get page "next_page_url" = Some nx -> nx <> JNull ->
    next_pages server repr pandas n self source from_date to_date (JDict page) df log
    = None.
Proof.
  intros Hserver Hpandas. induction n as [|n IH]; intros page nx df log Hdf Hnx Hnn.
  - reflexivity.
  - destruct (Hserver log (next_request repr self from_date to_date nx))
      as (page' & d & nx' & Hs & Hd & HP & Hnx' & Hnn').
    assert (Hdo : data_of page' = d) by (unfold data_of; now rewrite Hd).
    assert (Hd' : dict_get page' "data" <> None) by congruence.
    assert (Hacc : page_accepted pandas source df (data_of page'))
      by (rewrite Hdo; now apply Hpandas).
    rewrite (next_pages_step server repr pandas self source from_date to_date
               n page page' nx df log Hnx Hnn Hs Hd' Hacc).
    apply IH with nx'; try assumption.
    rewrite Hdo. now constructor.
Qed.

(** X8: the loop has no bound of its own.  For arguments that pass the
    checks, against a server whose every answer is a dict with a
    "next_page_url" that is not [None] and with "data" of a kind [P]
    that pandas accepts at every turn of the loop, [get_response] is
    still asking for pages after any number of loop tests: it never
    returns and never raises. *)
Theorem get_response_never_ends (P : json -> Prop) (log : list request) :
  checked source from_date to_date ->
  (forall (log : list request) (rq : request),
      exists (page : list (string * json)) (d nx : json),
        server log rq = inr (JDict page)
        /\ dict_get page "data" = Some d /\ P d
        /\ dict_get page "next_page_url" = Some nx /\ nx <> JNull) ->
  (forall d : json, P d -> pandas (pd_DataFrame d) = None) ->
  (forall (acc : DataFrame) (d : json),
      accumulated source P acc -> P d ->
      pandas (pd_DataFrame d) = None
      /\ pandas (if source =? "product" then df_T (pd_DataFrame d)
                 else pd_DataFrame d) = None
      /\ pandas (pd_concat acc (if source =? "product" then df_T (pd_DataFrame d)
                                else pd_DataFrame d)) = None) ->
  forall fuel : nat,
    get_response server repr pandas fuel self source from_date to_date region log
    = None.
Proof.
  intros Hc Hserver Hfirst Hpandas fuel. rewrite (get_response_fetch fuel log Hc).
  destruct (Hserver log (mk_request "GET" (first_url source from_date to_date)
                           (headers self)))
    as (page & d & nx & Hs & Hd & HP & Hnx & Hnn).
  assert (Hdo : data_of page = d) by (unfold data_of; now rewrite Hd).
  assert (Hd' : dict_get page "data" <> None) by congruence.
  rewrite (fetch_dict_data_accepted server repr pandas fuel self source from_date
             to_date region log _ page (build_query_checked Hc) Hs Hd'
             ltac:(rewrite Hdo; now apply Hfirst)).
  apply (next_pages_never_ends P Hserver Hpandas) with nx; try assumption.
  rewrite Hdo. now constructor.
Qed.

End Requests.

(** ** Runs of the model for the statements above *)

Section MoreRuns.

Import VeluxClub.

Ltac checked_demo :=
  split;
  [ simpl; auto
  | exists (mk_datetime 2022 3 22), (mk_datetime 2022 4 21);
    repeat split; try reflexivity; unfold date_lt; simpl; lia ].

Lemma get_response_requests_shape_witness :
  exists new : list request,
    [first_request; second_request] = ([] ++ new)%list
    /\ Forall (fun rq => method rq = "GET" /\ req_headers rq = headers demo) new
    /\ match new with
       | [] => True
       | first :: rest =>
           build_query "product" "2022-03-22" "2022-04-21" API_URL "null"
           = Return (url first)
           /\ Forall (fun rq => exists address : string,
                          url rq = address ++ "&from=" ++ "2022-03-22" ++ "&to="
                                     ++ "2022-04-21" ++ "&region&limit=100") rest
       end.
Proof.
  apply (get_response_requests_shape two_pages no_repr pandas_on_examples demo "product"
           "2022-03-22" "2022-04-21" "null" 5 []
           [first_request; second_request]
           (Return (pd_concat (pd_DataFrame (data_of page1))
                              (df_T (pd_DataFrame (data_of page2)))))).
  vm_compute. reflexivity.
Defined.

Lemma get_response_requests_iff_checked_witness :
  [jobs_request] <> []
  <-> (In "jobs" ["jobs"; "product"; "company"; "survey"]
       /\ exists f t : datetime,
            strptime "2022-03-22" = Return f /\ ~ date_lt f (mk_datetime 2022 3 22)
            /\ strptime "2022-04-21" = Return t /\ ~ date_lt t f).
Proof.
  apply (get_response_requests_iff_checked (answers_list []) no_repr pandas_on_examples demo "jobs"
           "2022-03-22" "2022-04-21" "null" 5 [] [jobs_request] (Raise IndexError)).
  vm_compute. reflexivity.
Defined.

Lemma get_response_first_request_witness :
  exists rest : list request,
    [mk_request "GET" "https://api.club.velux.com/api/v1/datalake/survey?language=en&type=question"
       (headers demo)]
    = ([] ++ mk_request "GET"
               (if "survey" =? "survey"
                then API_URL ++ "survey?language=en&type=question"
                else API_URL ++ "survey" ++ "?from=" ++ "2022-03-22"
                       ++ "&to=" ++ "2022-04-21" ++ "&region&limit=100")
               (headers demo) :: rest)%list.
Proof.
  apply (get_response_first_request (answers_list []) no_repr pandas_on_examples demo "survey"
           "2022-03-22" "2022-04-21" "null" 5 [] _ (Raise IndexError)).
  - checked_demo.
  - vm_compute. reflexivity.
Defined.

Lemma get_response_without_data_single_page_witness :
  get_response (answers_with (JDict [("ids", JList [JInt 1; JInt 2])])) no_repr
    pandas_on_examples 0 demo "jobs" "2022-03-22" "2022-04-21" "null" []
  = Some (Return (pd_DataFrame (JDict [("ids", JList [JInt 1; JInt 2])])),
          [jobs_request])
  /\ get_response (answers_with (JDict [("message", JStr "no jobs")])) no_repr
       pandas_on_examples 0 demo "jobs" "2022-03-22" "2022-04-21" "null" []
     = Some (Raise ValueError, [jobs_request]).
Proof.
  split.
  - apply (proj1 (get_response_without_data_single_page
                    (answers_with (JDict [("ids", JList [JInt 1; JInt 2])]))
                    no_repr pandas_on_examples demo
                    "jobs" "2022-03-22" "2022-04-21" "null" 0 []
                    (JDict [("ids", JList [JInt 1; JInt 2])])
                    ltac:(checked_demo) eq_refl eq_refl)).
    reflexivity.
  - apply (proj2 (get_response_without_data_single_page
                    (answers_with (JDict [("message", JStr "no jobs")]))
                    no_repr pandas_on_examples demo
                    "jobs" "2022-03-22" "2022-04-21" "null" 0 []
                    (JDict [("message", JStr "no jobs")])
                    ltac:(checked_demo) eq_refl eq_refl) PValueError).
    reflexivity.
Defined.

Lemma get_response_list_payload_errors_witness :
  get_response (answers_list [JDict [("data", JList [])]]) no_repr pandas_on_examples 5 demo
    "jobs" "2022-03-22" "2022-04-21" "null" []
  = Some (Raise TypeError, [jobs_request])
  /\ get_response (answers_list [JInt 7]) no_repr pandas_on_examples 5 demo
       "jobs" "2022-03-22" "2022-04-21" "null" []
     = Some (Raise AttributeError, [jobs_request]).
Proof.
  split.
  - apply (proj1 (get_response_list_payload_errors
                    (answers_list [JDict [("data", JList [])]]) no_repr pandas_on_examples demo
                    "jobs" "2022-03-22" "2022-04-21" "null" 5 []
                    (JDict [("data", JList [])]) []
                    ltac:(checked_demo) eq_refl)).
    exists [("data", JList [])]. split; [reflexivity | discriminate].
  - apply (proj2 (get_response_list_payload_errors
                    (answers_list [JInt 7]) no_repr pandas_on_examples demo
                    "jobs" "2022-03-22" "2022-04-21" "null" 5 []
                    (JInt 7) []
                    ltac:(checked_demo) eq_refl)).
    intros entries. discriminate.
Defined.

Lemma get_response_later_page_failure_witness :
  get_response times_out_after_first no_repr pandas_on_examples 5 demo
    "product" "2022-03-22" "2022-04-21" "null" []
  = Some (Raise (LibraryError "read timed out"), [first_request; second_request]).
Proof.
  apply (proj1 (get_response_later_page_failure times_out_after_first no_repr
                  pandas_on_examples demo
                  "product" "2022-03-22" "2022-04-21" "null" 5 [] page1 []
                  (JStr "https://api.club.velux.com/api/v1/datalake/product?page=2")
                  ltac:(checked_demo)
                  ltac:(simpl; repeat split)
                  ltac:(repeat constructor; discriminate)
                  eq_refl
                  ltac:(simpl; exact I)
                  eq_refl
                  ltac:(discriminate)
                  ltac:(simpl; lia))).
  reflexivity.
Defined.

Lemma get_response_returns_characterised_witness :
  checked "product" "2022-03-22" "2022-04-21"
  /\ exists payload : json,
       two_pages [] first_request = inr payload
       /\ exists (page : list (string * json)) (later : list (list (string * json))),
            payload = JDict page
            /\ Forall (fun p => dict_get p "data" <> None) (page :: later)
            /\ dict_get (last later page) "next_page_url" = Some JNull
            /\ [first_request; second_request]
               = ([] ++ chain_requests no_repr demo "2022-03-22" "2022-04-21"
                          first_request page later)%list.
Proof.
  destruct (get_response_returns_characterised two_pages no_repr pandas_on_examples demo "product"
              "2022-03-22" "2022-04-21" "null" 5 []
              [first_request; second_request]
              (pd_concat (pd_DataFrame (data_of page1))
                         (df_T (pd_DataFrame (data_of page2))))
              ltac:(vm_compute; reflexivity))
    as (Hc & payload & Hs & [Hsingle | Hchain]).
  - exfalso. destruct Hsingle as (ks & _ & _ & _ & Hlog). discriminate.
  - split; [exact Hc|]. exists payload. split; [exact Hs|].
    destruct Hchain as (page & later & Hp & _ & Hd & Hl & _ & Hlog & _).
    now exists page, later.
Defined.

Lemma get_response_never_ends_witness :
  get_response endless no_repr pandas_on_examples 1000 demo
    "jobs" "2022-03-22" "2022-04-21" "null" []
  = None.
Proof.
  apply (get_response_never_ends endless no_repr pandas_on_examples demo "jobs"
           "2022-03-22" "2022-04-21" "null" (fun d => d = data_of page1) []).
  - checked_demo.
  - intros log rq. exists page1, (data_of page1),
      (JStr "https://api.club.velux.com/api/v1/datalake/product?page=2").
    repeat split; discriminate.
  - intros d ->. reflexivity.
  - intros acc d _ ->. repeat split.
Defined.

End MoreRuns.

(** ** VeluxClub.__init__ *)

Section Init.

Import VeluxClub.

Lemma dict_pop_absent (d : list (string * json)) (key : string) (default : json) :
  dict_get d key = None -> dict_pop d key default = (default, d).
Proof.
  intros H. unfold dict_pop. rewrite H. f_equal.
  induction d as [|[k v] rest IH]; [reflexivity|].
  cbn in H |- *. destruct (k =? key); [discriminate|].
  cbn. now rewrite IH.
Qed.

(** X9: the keyword [credentials] is a named parameter, so it never
    reaches [kwargs]; the value passed for it is not used.  The headers
    are built from the TOKEN of the "VELUX_CLUB" entry of the local
    configuration, and that entry is what the base class receives;
    without the entry, [CredentialError] is raised whatever credentials
    were passed; an entry without TOKEN gives [KeyError]. *)
Theorem init_uses_local_config_only (local_config : list (string * json))
    (credentials : json) (kwargs : list (string * json)) :
  dict_get kwargs "credentials" = None ->
  (dict_get_default local_config "VELUX_CLUB" = JNull ->
   init local_config credentials kwargs
   = inl (CredentialError "Missing credentials."))
  /\ (forall (entry : list (string * json)) (token : string),
        dict_get local_config "VELUX_CLUB" = Some (JDict entry) ->
        dict_get entry "TOKEN" = Some (JStr token) ->
        init local_config credentials kwargs
        = inr (mk_constructed
                 (mk_instance [("Authorization", "Bearer " ++ token);
                               ("Content-Type", "application/json")])
                 (JDict entry) kwargs))
  /\ (forall entry : list (string * json),
        dict_get local_config "VELUX_CLUB" = Some (JDict entry) ->
        dict_get entry "TOKEN" = None ->
        init local_config credentials kwargs = inl (InitRaise (KeyError "TOKEN"))).
Proof.
  intros Hk. unfold init. rewrite (dict_pop_absent _ _ _ Hk).
  split; [|split].
  - intros ->. reflexivity.
  - intros entry token He Ht. unfold dict_get_default. rewrite He.
    cbn [getitem obind]. rewrite Ht. reflexivity.
  - intros entry He Ht. unfold dict_get_default. rewrite He.
    cbn [getitem obind]. rewrite Ht. reflexivity.
Qed.

Lemma init_uses_local_config_only_witness :
  init [] (JDict [("TOKEN", JStr "mine")]) [("timeout", JInt 30)]
  = inl (CredentialError "Missing credentials.")
  /\ init [("VELUX_CLUB", JDict [("TOKEN", JStr "configured")])]
       (JDict [("TOKEN", JStr "mine")]) [("timeout", JInt 30)]
     = inr (mk_constructed
              (mk_instance [("Authorization", "Bearer configured");
                            ("Content-Type", "application/json")])
              (JDict [("TOKEN", JStr "configured")]) [("timeout", JInt 30)]).
Proof.
  split.
  - apply (proj1 (init_uses_local_config_only [] (JDict [("TOKEN", JStr "mine")])
                    [("timeout", JInt 30)] eq_refl)).
    reflexivity.
  - apply (proj1 (proj2 (init_uses_local_config_only
                           [("VELUX_CLUB", JDict [("TOKEN", JStr "configured")])]
                           (JDict [("TOKEN", JStr "mine")])
                           [("timeout", JInt 30)] eq_refl))
             [("TOKEN", JStr "configured")] "configured"); reflexivity.
Defined.

End Init.

(** ** The catalog queries of SQLServer *)

Section CatalogText.

Import SQLServer.

(** A string is cut in one way only at the first occurrence of a
    character. *)
Lemma cut_at_first (c : ascii) (x1 x2 r1 r2 : string) :
  free_of c x1 -> free_of c x2 ->
  x1 ++ String c r1 = x2 ++ String c r2 ->
  x1 = x2 /\ r1 = r2.
Proof.
  unfold free_of. revert x2.
  induction x1 as [|a x1 IH]; intros x2 H1 H2 H; destruct x2 as [|b x2];
    cbn in H.
  - injection H as ->. now split.
  - injection H as <- _. exfalso. apply H2. cbn. now left.
  - injection H as -> _. exfalso. apply H1. cbn. now left.
  - injection H as -> H.
    destruct (IH x2) as [-> ->]; try assumption.
    + intros Hin. apply H1. cbn. now right.
    + intros Hin. apply H2. cbn. now right.
    + now split.
Qed.

Lemma append_assoc (a b c : string) : (a ++ b) ++ c = a ++ (b ++ c).
Proof. induction a as [|x a IH]; cbn; [reflexivity | now rewrite IH]. Qed.

Lemma append_inj_l (p a b : string) : p ++ a = p ++ b -> a = b.
Proof.
  induction p as [|x p IH]; cbn; [trivial|]. intros H. injection H as H. now apply IH.
Qed.

(** X10: for schema and table names without a single quote, the text of
    the query [exists] sends determines the names: two different pairs
    of names never give the same query. *)
Theorem list_table_info_query_injective (schema1 table1 schema2 table2 : string) :
  free_of "'" schema1 -> free_of "'" schema2 ->
  free_of "'" table1 -> free_of "'" table2 ->
  list_table_info_query schema1 table1 = list_table_info_query schema2 table2 ->
  schema1 = schema2 /\ table1 = table2.
Proof.
  intros Hs1 Hs2 Ht1 Ht2 H. unfold list_table_info_query in H.
  apply append_inj_l in H.
  change ("' AND t.name = '" ++ table1 ++ "'
        ") with (String "'" (" AND t.name = '" ++ table1 ++ "'
        ")) in H.
  change ("' AND t.name = '" ++ table2 ++ "'
        ") with (String "'" (" AND t.name = '" ++ table2 ++ "'
        ")) in H.
  apply cut_at_first in H; try assumption. destruct H as [-> H].
  split; [reflexivity|].
  apply append_inj_l in H.
  change ("'
        ") with (String "'" "
        ") in H.
  apply cut_at_first in H; try assumption. now destruct H.
Qed.

Lemma append_nonempty (a b : string) : b <> "" -> (a ++ b =? "") = false.
Proof.
  intros Hb. apply String.eqb_neq. destruct a; cbn; [exact Hb | discriminate].
Qed.

(** X11: names are pasted into the query text as they are, so a quote in
    a name moves the boundary between the two: the table [c] in the
    schema [a' AND t.name = 'b] and the table [b' AND t.name = 'c] in the
    schema [a] are looked up with the same query, and [exists] gives the
    same answer for both. *)
Theorem exists_confuses_quoted_names (row : Type) (run : string -> string + list row)
    (a b c : string) :
  a <> "" ->
  exists_ row run c (Some (a ++ "' AND t.name = '" ++ b))
  = exists_ row run (b ++ "' AND t.name = '" ++ c) (Some a).
Proof.
  intros Ha. unfold exists_, falsy.
  apply String.eqb_neq in Ha. rewrite Ha.
  assert (Hn : (a ++ "' AND t.name = '" ++ b =? "") = false).
  { apply String.eqb_neq. destruct a; [now rewrite String.eqb_refl in Ha | discriminate]. }
  rewrite Hn.
  assert (Hq : list_table_info_query (a ++ "' AND t.name = '" ++ b) c
               = list_table_info_query a (b ++ "' AND t.name = '" ++ c)).
  { unfold list_table_info_query. f_equal.
    rewrite !append_assoc. reflexivity. }
  now rewrite Hq.
Qed.

Lemma exists_confuses_quoted_names_witness :
  exists_ unit (fun _ => inr [tt]) "orders" (Some "dbo' AND t.name = 'x")
  = exists_ unit (fun _ => inr [tt]) "x' AND t.name = 'orders" (Some "dbo").
Proof.
  apply (exists_confuses_quoted_names unit (fun _ => inr [tt]) "dbo" "x" "orders").
  discriminate.
Defined.

Lemma list_table_info_query_injective_witness :
  ("dbo" = "dbo" /\ "orders" = "orders")
  /\ list_table_info_query "dbo" "orders" <> list_table_info_query "sales" "orders".
Proof.
  assert (Hfree : free_of "'" "dbo" /\ free_of "'" "orders" /\ free_of "'" "sales").
  { unfold free_of; cbn; intuition discriminate. }
  destruct Hfree as (Hd & Ho & Hs). split.
  - exact (list_table_info_query_injective "dbo" "orders" "dbo" "orders"
             Hd Hd Ho Ho eq_refl).
  - intros H.
    destruct (list_table_info_query_injective "dbo" "orders" "sales" "orders"
                Hd Hs Ho Ho H) as [H1 _].
    discriminate.
Defined.

(** X12: when every row of the tables query is a schema name without a
    dot and a table name, the list [tables] returns determines the rows:
    two catalogs with the same list of "schema.table" names have the
    same rows. *)
Theorem tables_determine_rows
    (run1 run2 : string -> string + list (list string))
    (rows1 rows2 : list (list string)) (names : list string) :
  run1 "SELECT schema_name(t.schema_id), t.name FROM sys.tables t" = inr rows1 ->
  run2 "SELECT schema_name(t.schema_id), t.name FROM sys.tables t" = inr rows2 ->
  Forall (fun r => exists s t, r = [s; t] /\ free_of "." s) rows1 ->
  Forall (fun r => exists s t, r = [s; t] /\ free_of "." s) rows2 ->
  tables run1 = Return names ->
  tables run2 = Return names ->
  rows1 = rows2.
Proof.
  intros H1 H2 Hw1 Hw2. unfold tables. rewrite H1, H2.
  intros E1 E2. injection E1 as <-. injection E2 as E.
  clear H1 H2. revert rows2 Hw2 E.
  induction Hw1 as [|r1 rows1 (s1 & t1 & -> & Hf1) _ IH]; intros rows2 Hw2 E.
  - destruct rows2; [reflexivity | discriminate].
  - destruct Hw2 as [|r2 rows2 (s2 & t2 & -> & Hf2) Hw2]; [discriminate|].
    cbn [map] in E. injection E as Hr E.
    cbn [String.concat] in Hr.
    change ("." ++ t2) with (String "." t2) in Hr.
    change ("." ++ t1) with (String "." t1) in Hr.
    apply cut_at_first in Hr; try assumption. destruct Hr as [-> ->].
    f_equal. now apply IH.
Qed.

Lemma tables_determine_rows_witness :
  [["dbo"; "orders"]; ["sales"; "order.lines"]]
  = [["dbo"; "orders"]; ["sales"; "order.lines"]].
Proof.
  apply (tables_determine_rows
           (fun _ => inr [["dbo"; "orders"]; ["sales"; "order.lines"]])
           (fun _ => inr [["dbo"; "orders"]; ["sales"; "order.lines"]])
           _ _ ["dbo.orders"; "sales.order.lines"] eq_refl eq_refl).
  - repeat constructor; eexists; eexists; (split; [reflexivity|]);
      unfold free_of; cbn; intuition discriminate.
  - repeat constructor; eexists; eexists; (split; [reflexivity|]);
      unfold free_of; cbn; intuition discriminate.
  - reflexivity.
  - reflexivity.
Defined.

(** X13: [schemas] gives the first column of each row of its query, in
    row order, and the empty list for an empty result; a row without
    columns makes it raise [IndexError]. *)
Theorem schemas_first_column (run : string -> string + list (list string))
    (rows : list (list string)) :
  run "SELECT s.name as schema_name from sys.schemas s" = inr rows ->
  (Forall (fun r => r <> []) rows -> schemas run = Return (map (hd "") rows))
  /\ (Exists (fun r => r = []) rows -> schemas run = Raise IndexError).
Proof.
  intros Hrun. unfold schemas. rewrite Hrun. clear Hrun. split.
  - induction 1 as [|r rows Hr _ IH]; [reflexivity|].
    destruct r as [|x r]; [contradiction|].
    cbn [first_columns map hd]. rewrite IH. reflexivity.
  - induction rows as [|r rows IH]; intros H; inversion H; subst.
    + reflexivity.
    + destruct r as [|x r]; [reflexivity|].
      cbn [first_columns]. rewrite IH by assumption. reflexivity.
Qed.

Lemma schemas_first_column_witness :
  schemas (fun _ => inr [["dbo"]; ["sales"]]) = Return ["dbo"; "sales"]
  /\ schemas (fun _ => inr [["dbo"]; []]) = Raise IndexError.
Proof.
  split.
  - apply (proj1 (schemas_first_column (fun _ => inr [["dbo"]; ["sales"]])
                    [["dbo"]; ["sales"]] eq_refl)).
    repeat constructor; discriminate.
  - apply (proj2 (schemas_first_column (fun _ => inr [["dbo"]; []])
                    [["dbo"]; []] eq_refl)).
    right. left. reflexivity.
Defined.

End CatalogText.

(** ** build_query: the branch for survey *)

(** X14: the second test of [build_query] is [source in "survey"] on
    strings, so every category that is none of jobs, product and company
    and occurs inside the word "survey" (the empty string and single
    letters included) gets a URL: the address, the category as passed,
    and the two fixed filters. *)
Theorem build_query_inside_survey (source from_date to_date api_url region : string) :
  ~ In source ["jobs"; "product"; "company"] ->
  (exists pre post, "survey" = pre ++ source ++ post) ->
  VeluxClub.build_query source from_date to_date api_url region
  = Return (api_url ++ source ++ "?language=en&type=question").
Proof.
  intros Hsrc Hsub. unfold VeluxClub.build_query.
  destruct (py_in source ["jobs"; "product"; "company"]) eqn:E.
  - apply py_in_In in E. contradiction.
  - apply str_contains_spec in Hsub. now rewrite Hsub.
Qed.

Lemma build_query_inside_survey_witness :
  VeluxClub.build_query "" "2022-03-22" "2022-04-21" VeluxClub.API_URL "null"
  = Return "https://api.club.velux.com/api/v1/datalake/?language=en&type=question"
  /\ VeluxClub.build_query "vey" "2022-03-22" "2022-04-21" VeluxClub.API_URL "null"
     = Return "https://api.club.velux.com/api/v1/datalake/vey?language=en&type=question".
Proof.
  split.
  - apply (build_query_inside_survey "" "2022-03-22" "2022-04-21"
             VeluxClub.API_URL "null").
    + simpl. intros [H|[H|[H|[]]]]; discriminate.
    + exists "", "survey". reflexivity.
  - apply (build_query_inside_survey "vey" "2022-03-22" "2022-04-21"
             VeluxClub.API_URL "null").
    + simpl. intros [H|[H|[H|[]]]]; discriminate.
    + exists "sur", "". reflexivity.
Defined.
